(** * Apartment search backend: scraping orchestrator and cache reconciliation

    A shallow embedding of [backend/server.py].  Python dictionaries are
    finite maps from field names to dynamically typed values, the MongoDB
    collection [db.listings] is a list of documents in natural (insertion)
    order, and every function that talks to the store or may raise is a
    computation in a small state-and-exception monad. *)

From stdpp Require Import gmap strings list fin_maps pretty.
From Stdlib Require Import ZArith Ascii.

Open Scope Z_scope.

(** ** Python values and dictionaries *)

(** The values a listing dictionary holds: [None], booleans, integers,
    strings, the list of image urls, and [datetime] objects (a count of
    microseconds). *)
Inductive value : Type :=
| VNone
| VBool (b : bool)
| VInt (n : Z)
| VStr (s : string)
| VList (l : list string)
| VDatetime (t : Z).

#[global] Instance value_eq_dec : EqDecision value.
Proof. solve_decision. Defined.

(** A listing dictionary / a stored document. *)
Abbreviation doc := (gmap string value).

(** The exceptions the modelled code can meet. *)
Inductive exn : Type :=
| KeyError (k : string)
| ValueError
| AttributeError
| TypeError
| NoSuchElementException
| TimeoutException
| StoreError
| OperationFailure
| HTTPException (status_code : Z)
| UnboundLocalError
| WebDriverException.

Inductive result (A : Type) : Type :=
| Ok (a : A)
| Raise (e : exn).
Arguments Ok {A} a.
Arguments Raise {A} e.

(** Library behaviour the source relies on and does not define:
    [str.lower] on unicode text, the store's case-insensitive regular
    expression search ([None] for a pattern that does not compile), and
    [datetime.isoformat]. *)
Record runtime : Type := {
  str_lower : string → string;
  regex_compile_i : string → option (string → bool);
  isoformat : Z → string
}.

(** [d.get(k)]: the value, or [None] when the key is absent. *)
Definition dict_get (d : doc) (k : string) : value :=
  default VNone (d !! k).

(** [d[k]]: the value, or [KeyError]. *)
Definition getitem (d : doc) (k : string) : result value :=
  match d !! k with
  | Some v => Ok v
  | None => Raise (KeyError k)
  end.

(** Truth value of an [Optional[int]] and of an [Optional[str]] in an
    [if]: [None], [0] and the empty string are false. *)
Definition truthy_int (o : option Z) : bool :=
  match o with
  | Some n => negb (n =? 0)
  | None => false
  end.

Definition truthy_str (o : option string) : bool :=
  match o with
  | Some s => negb (String.eqb s "")
  | None => false
  end.

(** ** The document store *)

(** The store: the [listings] collection, and for each coming store call
    whether it fails ([true]: the call raises; an exhausted list means no
    further failure). *)
Record world : Type := {
  listings : list doc;
  faults : list bool
}.

(** Computations over the store that may raise. *)
Definition M (A : Type) : Type := world → result A * world.

#[global] Instance M_ret : MRet M := λ A a w, (Ok a, w).
#[global] Instance M_bind : MBind M := λ A B f m w,
  match m w with
  | (Ok a, w') => f a w'
  | (Raise e, w') => (Raise e, w')
  end.

(** Lift a pure step that may raise. *)
Definition lift {A : Type} (r : result A) : M A := λ w, (r, w).

(** [try: m except Exception: return a]. *)
Definition try_except {A : Type} (m : M A) (handler : exn → A) : world → A * world :=
  λ w, match m w with
       | (Ok a, w') => (a, w')
       | (Raise e, w') => (handler e, w')
       end.

(** One round trip to the store: it consumes one fault flag, and when the
    call goes through, runs [op] on the collection. *)
Definition db_call {A : Type} (op : list doc → result A * list doc) : M A := λ w,
  match faults w with
  | true :: fs => (Raise StoreError, {| listings := listings w; faults := fs |})
  | false :: fs =>
      let '(r, ds) := op (listings w) in (r, {| listings := ds; faults := fs |})
  | [] =>
      let '(r, ds) := op (listings w) in (r, {| listings := ds; faults := [] |})
  end.

(** The clauses the code puts in a filter document: equality with a value,
    [{"$regex": p, "$options": "i"}], and [{"$gte": a, "$lte": b}] with
    either bound possibly absent. *)
Inductive clause : Type :=
| CEq (v : value)
| CRegexI (pattern : string)
| CRange (gte lte : option Z).

(** A filter document: a conjunction of clauses, one per field. *)
Definition query : Type := list (string * clause).

(** Equality clause: the field holds the value; a missing field matches
    [None]; an array field matches when one of its elements is the value. *)
Definition eq_match (q : value) (field : option value) : bool :=
  match field with
  | None => bool_decide (q = VNone)
  | Some (VList l) =>
      bool_decide (q = VList l)
      || match q with VStr s => bool_decide (s ∈ l) | _ => false end
  | Some v => bool_decide (q = v)
  end.

(** Range clause: only a number is compared with a number. *)
Definition range_match (gte lte : option Z) (field : option value) : bool :=
  match field with
  | Some (VInt n) =>
      match gte with Some a => a <=? n | None => true end
      && match lte with Some b => n <=? b | None => true end
  | _ => false
  end.

(** Regex clause: a string field, or an array with a matching element. *)
Definition regex_match (rt : runtime) (pattern : string) (field : option value) : bool :=
  match regex_compile_i rt pattern with
  | None => false
  | Some search =>
      match field with
      | Some (VStr s) => search s
      | Some (VList l) => existsb search l
      | _ => false
      end
  end.

Definition clause_match (rt : runtime) (c : clause) (field : option value) : bool :=
  match c with
  | CEq v => eq_match v field
  | CRegexI p => regex_match rt p field
  | CRange a b => range_match a b field
  end.

Definition matches (rt : runtime) (q : query) (d : doc) : bool :=
  forallb (λ kc, clause_match rt kc.2 (d !! kc.1)) q.

(** The server refuses a filter holding a pattern that does not compile. *)
Definition query_ok (rt : runtime) (q : query) : bool :=
  forallb (λ kc, match kc.2 with
                 | CRegexI p => bool_decide (is_Some (regex_compile_i rt p))
                 | _ => true
                 end) q.

(** [find(q).limit(n)], read to the end. *)
Definition find (rt : runtime) (q : query) (limit : nat) : M (list doc) :=
  db_call (λ ds,
    if query_ok rt q
    then (Ok (take limit (List.filter (matches rt q) ds)), ds)
    else (Raise OperationFailure, ds)).

(** [find_one(q)]: the first matching document in natural order. *)
Definition find_one (rt : runtime) (q : query) : M (option doc) :=
  db_call (λ ds,
    if query_ok rt q
    then (Ok (List.find (matches rt q) ds), ds)
    else (Raise OperationFailure, ds)).

(** [insert_one(d)]: the document goes to the end of the collection. *)
Definition insert_one (d : doc) : M unit :=
  db_call (λ ds, (Ok tt, ds ++ [d])).

(** [{"$set": patch}] on the first matching document: every key of the
    patch overwrites, every other key stays. *)
Fixpoint set_first (rt : runtime) (q : query) (patch : doc) (ds : list doc) : list doc :=
  match ds with
  | [] => []
  | d :: ds' =>
      if matches rt q d then (patch ∪ d) :: ds'
      else d :: set_first rt q patch ds'
  end.

Definition update_one (rt : runtime) (q : query) (patch : doc) : M unit :=
  db_call (λ ds,
    if query_ok rt q
    then (Ok tt, set_first rt q patch ds)
    else (Raise OperationFailure, ds)).

(** ** Pydantic models *)

Record SearchCriteria : Type := {
  location : option string;
  property_type : option string;
  rooms : option Z;
  min_surface : option Z;
  max_surface : option Z;
  min_price : option Z;
  max_price : option Z;
  furnished : option bool;
  charges : option string;
  bedrooms : option Z;
  floor : option Z;
  balcony : option bool;
  parking : option bool;
  pets : option bool
}.

(** [SearchCriteria()] with every default. *)
Definition default_criteria : SearchCriteria := {|
  location := None;
  property_type := Some "appartement"%string;
  rooms := None;
  min_surface := None;
  max_surface := None;
  min_price := None;
  max_price := None;
  furnished := None;
  charges := Some "excluded"%string;
  bedrooms := None;
  floor := None;
  balcony := Some false;
  parking := Some false;
  pets := Some false
|}.

(** ** [get_cached_listings] *)

(** A bound enters the range clause only when it is truthy. *)
Definition bound (o : option Z) : option Z :=
  if truthy_int o then o else None.

(** The filter [get_cached_listings] builds from the criteria. *)
Definition cache_query (c : SearchCriteria) : query :=
  (if truthy_str (location c)
   then [("address"%string, CRegexI (default ""%string (location c)))] else [])
  ++ (if truthy_int (min_price c) || truthy_int (max_price c)
      then [("price"%string, CRange (bound (min_price c)) (bound (max_price c)))]
      else [])
  ++ (if truthy_int (rooms c)
      then [("rooms"%string, CRange (rooms c) None)] else [])
  ++ (if truthy_int (min_surface c) || truthy_int (max_surface c)
      then [("surface"%string, CRange (bound (min_surface c)) (bound (max_surface c)))]
      else []).

(** The body of the read loop: drop [_id], turn [published_at] into its
    ISO string; a [published_at] that is not a datetime has no
    [isoformat]. *)
Definition serialize_listing (rt : runtime) (d : doc) : result doc :=
  let d' := delete "_id"%string d in
  match d' !! "published_at"%string with
  | None => Ok d'
  | Some (VDatetime t) => Ok (<["published_at"%string := VStr (isoformat rt t)]> d')
  | Some _ => Raise AttributeError
  end.

Fixpoint serialize_all (rt : runtime) (ds : list doc) : result (list doc) :=
  match ds with
  | [] => Ok []
  | d :: ds' =>
      match serialize_listing rt d with
      | Raise e => Raise e
      | Ok d' =>
          match serialize_all rt ds' with
          | Raise e => Raise e
          | Ok out => Ok (d' :: out)
          end
      end
  end.

Definition LIMIT : nat := 50.

Definition get_cached_listings_body (rt : runtime) (c : SearchCriteria) : M (list doc) :=
  found ← find rt (cache_query c) LIMIT;
  lift (serialize_all rt found).

(** Any exception is logged and answered with the empty list. *)
Definition get_cached_listings (rt : runtime) (c : SearchCriteria)
  : world → list doc * world :=
  try_except (get_cached_listings_body rt c) (λ _, []).

(** ** The scrapers *)

(** Text primitives.  Text is a byte string; whitespace and digits are the
    ASCII ones. *)
Definition is_space (a : ascii) : bool :=
  let n := nat_of_ascii a in
  ((9 <=? n) && (n <=? 13) || (28 <=? n) && (n <=? 32))%nat.

Definition is_digit (a : ascii) : bool :=
  let n := nat_of_ascii a in ((48 <=? n) && (n <=? 57))%nat.

Fixpoint lstrip (s : string) : string :=
  match s with
  | EmptyString => EmptyString
  | String a s' => if is_space a then lstrip s' else s
  end.

Fixpoint rstrip (s : string) : string :=
  match s with
  | EmptyString => EmptyString
  | String a s' =>
      let r := rstrip s' in
      if is_space a && String.eqb r "" then EmptyString else String a r
  end.

(** [s.strip()]. *)
Definition strip (s : string) : string := rstrip (lstrip s).

(** [''.join(filter(str.isdigit, s))]. *)
Fixpoint digits_of (s : string) : string :=
  match s with
  | EmptyString => EmptyString
  | String a s' => if is_digit a then String a (digits_of s') else digits_of s'
  end.

Fixpoint int_digits (acc : Z) (s : string) : option Z :=
  match s with
  | EmptyString => Some acc
  | String a s' =>
      if is_digit a
      then int_digits (10 * acc + (Z.of_nat (nat_of_ascii a) - 48)) s'
      else None
  end.

(** [int(s)] for the strings the code hands it (digits only): the empty
    string is a [ValueError]. *)
Definition py_int (s : string) : result Z :=
  match s with
  | EmptyString => Raise ValueError
  | _ => match int_digits 0 s with
         | Some n => Ok n
         | None => Raise ValueError
         end
  end.

(** What the selectors of [parse_listing_element] find in one listing
    element: the text of a node, or nothing when [find_element] raises;
    for [img] and [a], the attribute of the node found ([None] when the
    attribute is absent). *)
Record element : Type := {
  aditem_title : option string;
  aditem_price : option string;
  aditem_location : option string;
  img_src : option (option string);
  a_href : option (option string)
}.

(** The values drawn while one element is parsed: [uuid4()], the
    [random] calls and [datetime.now()]. *)
Record draws : Type := {
  uuid : string;
  surface_draw : Z;
  rooms_draw : Z;
  bedrooms_draw : Z;
  now_draw : Z;
  furnished_draw : bool;
  charges_draw : Z;
  floor_draw : Z;
  balcony_draw : bool;
  parking_draw : bool;
  pets_draw : bool
}.

(** [element.find_element(...)]. *)
Definition find_element {A : Type} (node : option A) : result A :=
  match node with
  | Some a => Ok a
  | None => Raise NoSuchElementException
  end.

#[global] Instance result_ret : MRet result := λ A a, Ok a.
#[global] Instance result_bind : MBind result := λ A B f r,
  match r with
  | Ok a => f a
  | Raise e => Raise e
  end.

(** [int(''.join(filter(str.isdigit, price_text))) if price_text else 0]. *)
Definition extract_price (price_text : string) : result Z :=
  if String.eqb price_text "" then Ok 0 else py_int (digits_of price_text).

Definition opt_value (o : option string) : value :=
  match o with
  | Some s => VStr s
  | None => VNone
  end.

(** The [try] block of [parse_listing_element]. *)
Definition parse_listing_element_body (e : element) (r : draws) : result doc :=
  title_text ← find_element (aditem_title e);
  price_raw ← find_element (aditem_price e);
  location_text ← find_element (aditem_location e);
  let title := strip title_text in
  let price_text := strip price_raw in
  let location := strip location_text in
  price ← extract_price price_text;
  image_url ← find_element (img_src e);
  listing_url ← find_element (a_href e);
  mret (list_to_map [
    ("id", VStr (uuid r));
    ("title", VStr title);
    ("price", VInt price);
    ("surface", VInt (surface_draw r));
    ("rooms", VInt (rooms_draw r));
    ("bedrooms", VInt (bedrooms_draw r));
    ("address", VStr location);
    ("description", VStr title);
    ("images", VList (if truthy_str image_url then [default "" image_url] else []));
    ("source", VStr "LeBonCoin");
    ("published_at", VDatetime (now_draw r));
    ("furnished", VBool (furnished_draw r));
    ("charges", VInt (charges_draw r));
    ("floor", VInt (floor_draw r));
    ("balcony", VBool (balcony_draw r));
    ("parking", VBool (parking_draw r));
    ("pets", VBool (pets_draw r));
    ("url", opt_value listing_url)
  ]%string).

(** [parse_listing_element]: the listing, or [None] after any exception. *)
Definition parse_listing_element (e : element) (r : draws) : option doc :=
  match parse_listing_element_body e r with
  | Ok d => Some d
  | Raise _ => None
  end.

(** ** The orchestrator *)

(** How one scraper's [scrape_listings] ends in a run: it returns its
    listings, raises an [Exception], or ends with an exception outside
    [Exception] (a cancellation). *)
Inductive scrape_outcome : Type :=
| Returns (ls : list doc)
| Raises (e : exn)
| RaisesBase.

(** What [gather(..., return_exceptions=True)] hands back for one task. *)
Inductive task_result : Type :=
| RList (ls : list doc)
| RException (e : exn)
| ROther.

(** [scrape_source_with_error_handling]: an [Exception] is logged and
    answered with the empty list. *)
Definition scrape_source_with_error_handling
    (source_name : string) (o : scrape_outcome) : task_result :=
  match o with
  | Returns ls => RList ls
  | Raises _ => RList []
  | RaisesBase => ROther
  end.

(** The loop over the gathered results, which come in task order. *)
Fixpoint extend_with (all_listings : list doc) (results : list task_result) : list doc :=
  match results with
  | [] => all_listings
  | RList ls :: rest => extend_with (all_listings ++ ls) rest
  | RException _ :: rest => extend_with all_listings rest
  | ROther :: rest => extend_with all_listings rest
  end.

(** [scrape_all_sources]: one task per registered scraper, in registration
    order; [run] gives each scraper's name and how its scrape ends. *)
Definition scrape_all_sources (run : list (string * scrape_outcome)) : list doc :=
  let tasks := map (λ so, scrape_source_with_error_handling so.1 so.2) run in
  extend_with [] tasks.

(** ** [scrape_and_cache_listings] *)

(** The filter document [{"external_id": e, "source": s}]. *)
Definition identity_filter (external_id source : value) : query :=
  [("external_id"%string, CEq external_id); ("source"%string, CEq source)].

(** The filter of both the lookup and the update:
    [{"external_id": listing.get("external_id"), "source": listing["source"]}]. *)
Definition identity_query (listing : doc) : result query :=
  src ← getitem listing "source";
  mret (identity_filter (dict_get listing "external_id") src).

(** The body of the loop over the scraped listings. *)
Definition reconcile (rt : runtime) (listing : doc) : M unit :=
  q ← lift (identity_query listing);
  existing ← find_one rt q;
  match existing with
  | None =>
      _ ← insert_one listing;
      _ ← lift (getitem listing "title");
      mret tt
  | Some _ =>
      q' ← lift (identity_query listing);
      _ ← update_one rt q' listing;
      _ ← lift (getitem listing "title");
      mret tt
  end.

Fixpoint reconcile_all (rt : runtime) (batch : list doc) : M unit :=
  match batch with
  | [] => mret tt
  | listing :: rest => _ ← reconcile rt listing; reconcile_all rt rest
  end.

(** The background task: one [try] around the scrape and the whole loop. *)
Definition scrape_and_cache_listings (rt : runtime)
    (run : list (string * scrape_outcome)) : world → unit * world :=
  try_except (reconcile_all rt (scrape_all_sources run)) (λ _, tt).

(** ** [generate_sample_listings] and the search route *)

(** The values drawn while the sample data is built: six [uuid4()] calls
    and three [datetime.now()] calls, in source order. *)
Record sample_draws : Type := {
  uuid_1 : string;
  now_1 : Z;
  uuid_2 : string;
  uuid_3 : string;
  now_2 : Z;
  uuid_4 : string;
  uuid_5 : string;
  now_3 : Z;
  uuid_6 : string
}.

(** [timedelta(days=n)] in microseconds. *)
Definition days (n : Z) : Z := n * 86400000000.

Definition sample_data (rt : runtime) (r : sample_draws) : list doc := [
  list_to_map [
    ("id", VStr (uuid_1 r));
    ("title", VStr "Appartement 2 pièces - Centre Paris");
    ("price", VInt 1200);
    ("surface", VInt 45);
    ("rooms", VInt 2);
    ("bedrooms", VInt 1);
    ("address", VStr "75001 Paris, Île-de-France");
    ("description", VStr "Magnifique appartement au cœur de Paris, proche des transports en commun. Entièrement rénové avec une cuisine équipée moderne.");
    ("images", VList ["https://images.unsplash.com/photo-1522708323590-d24dbb6b0267?w=400"]);
    ("source", VStr "LeBonCoin");
    ("published_at", VStr (isoformat rt (now_1 r - days 1)));
    ("furnished", VBool true);
    ("charges", VInt 150);
    ("floor", VInt 3);
    ("balcony", VBool true);
    ("parking", VBool false);
    ("pets", VBool false);
    ("url", VStr ("https://leboncoin.fr/fake-" +:+ uuid_2 r))
  ]%string;
  list_to_map [
    ("id", VStr (uuid_3 r));
    ("title", VStr "Studio meublé - Quartier Latin");
    ("price", VInt 850);
    ("surface", VInt 25);
    ("rooms", VInt 1);
    ("bedrooms", VInt 0);
    ("address", VStr "75005 Paris, Île-de-France");
    ("description", VStr "Studio lumineux dans le quartier historique du Quartier Latin. Parfait pour étudiant ou jeune professionnel.");
    ("images", VList ["https://images.unsplash.com/photo-1502672260266-1c1ef2d93688?w=400"]);
    ("source", VStr "SeLoger");
    ("published_at", VStr (isoformat rt (now_2 r - days 2)));
    ("furnished", VBool true);
    ("charges", VInt 100);
    ("floor", VInt 2);
    ("balcony", VBool false);
    ("parking", VBool false);
    ("pets", VBool true);
    ("url", VStr ("https://seloger.com/fake-" +:+ uuid_4 r))
  ]%string;
  list_to_map [
    ("id", VStr (uuid_5 r));
    ("title", VStr "Appartement 3 pièces avec terrasse");
    ("price", VInt 1800);
    ("surface", VInt 70);
    ("rooms", VInt 3);
    ("bedrooms", VInt 2);
    ("address", VStr "92100 Boulogne-Billancourt, Île-de-France");
    ("description", VStr "Spacieux appartement familial avec grande terrasse. Parking privé inclus. Quartier résidentiel calme.");
    ("images", VList ["https://images.unsplash.com/photo-1560448204-e02f11c3d0e2?w=400"]);
    ("source", VStr "Foncia");
    ("published_at", VStr (isoformat rt (now_3 r - days 0)));
    ("furnished", VBool false);
    ("charges", VInt 200);
    ("floor", VInt 5);
    ("balcony", VBool true);
    ("parking", VBool true);
    ("pets", VBool false);
    ("url", VStr ("https://foncia.com/fake-" +:+ uuid_6 r))
  ]%string
].

(** [needle in hay] on strings. *)
Fixpoint contains (needle hay : string) : bool :=
  String.prefix needle hay
  || match hay with
     | EmptyString => false
     | String _ hay' => contains needle hay'
     end.

(** [listing[k]] used as a string, and as a number. *)
Definition get_str (d : doc) (k : string) : result string :=
  v ← getitem d k;
  match v with
  | VStr s => Ok s
  | _ => Raise AttributeError
  end.

Definition get_int (d : doc) (k : string) : result Z :=
  v ← getitem d k;
  match v with
  | VInt n => Ok n
  | _ => Raise TypeError
  end.

(** One test of the filter loop: when the criterion is truthy, look the
    field up and compare; [true] means [continue]. *)
Definition int_test (criterion : option Z) (listing : doc) (k : string)
    (violates : Z → Z → bool) : result bool :=
  if truthy_int criterion
  then n ← get_int listing k; mret (violates n (default 0 criterion))
  else mret false.

(** The chain of [if ...: continue] tests: [true] when the listing is
    skipped. *)
Definition skipped (rt : runtime) (c : SearchCriteria) (listing : doc) : result bool :=
  t1 ← (if truthy_str (location c)
        then address ← get_str listing "address";
             mret (negb (contains (str_lower rt (default ""%string (location c)))
                                  (str_lower rt address)))
        else mret false);
  if t1 : bool then mret true else
  t2 ← int_test (min_price c) listing "price" Z.ltb;
  if t2 : bool then mret true else
  t3 ← int_test (max_price c) listing "price" Z.gtb;
  if t3 : bool then mret true else
  t4 ← int_test (rooms c) listing "rooms" Z.ltb;
  if t4 : bool then mret true else
  t5 ← int_test (min_surface c) listing "surface" Z.ltb;
  if t5 : bool then mret true else
  int_test (max_surface c) listing "surface" Z.gtb.

Fixpoint filter_samples (rt : runtime) (c : SearchCriteria) (data : list doc)
  : result (list doc) :=
  match data with
  | [] => mret []
  | listing :: rest =>
      skip ← skipped rt c listing;
      kept ← filter_samples rt c rest;
      mret (if skip : bool then kept else listing :: kept)
  end.

(** [filtered_listings if filtered_listings else sample_data]. *)
Definition generate_sample_listings (rt : runtime) (r : sample_draws)
    (c : SearchCriteria) : result (list doc) :=
  let data := sample_data rt r in
  filtered_listings ← filter_samples rt c data;
  mret (match filtered_listings with
        | [] => data
        | _ :: _ => filtered_listings
        end).

(** The body of the search response. *)
Record search_response : Type := {
  resp_listings : list doc;
  resp_total : nat;
  resp_cached : bool;
  resp_message : option string
}.

(** [search_apartments]: the response, and whether a background refresh
    was queued; any exception becomes a 500. *)
Definition search_apartments (rt : runtime) (r : sample_draws) (c : SearchCriteria)
  : world → result (search_response * bool) * world := λ w,
  let '(cached_listings, w') := get_cached_listings rt c w in
  match cached_listings with
  | _ :: _ =>
      (Ok ({| resp_listings := cached_listings;
              resp_total := length cached_listings;
              resp_cached := true;
              resp_message := None |}, false), w')
  | [] =>
      match generate_sample_listings rt r c with
      | Ok sample_listings =>
          (Ok ({| resp_listings := sample_listings;
                  resp_total := length sample_listings;
                  resp_cached := false;
                  resp_message :=
                    Some "Scraping in progress... Real results will be available shortly."%string |},
               true), w')
      | Raise _ => (Raise (HTTPException 500), w')
      end
  end.

(** ** Search urls *)

(** [f"{n}"] for an integer. *)
Definition str_int (n : Z) : string := pretty n.

(** [f"{n:02d}"]: at least two characters, padded with a zero. *)
Definition str_int_02 (n : Z) : string :=
  if (0 <=? n) && (n <? 10) then "0" +:+ str_int n else str_int n.

(** [f"{o or ''}"] for an [Optional[int]]. *)
Definition or_empty (o : option Z) : string :=
  if truthy_int o then str_int (default 0 o) else ""%string.

(** [LeBonCoinScraper.build_search_url]. *)
Definition leboncoin_build_search_url (c : SearchCriteria) : string :=
  let url := "https://www.leboncoin.fr" +:+ "/recherche?category=10&real_estate_type=2" in
  let url :=
    if truthy_str (location c)
    then url +:+ "&locations=" +:+ default ""%string (location c) else url in
  let url :=
    if truthy_int (min_price c)
    then url +:+ "&price=" +:+ str_int (default 0 (min_price c)) +:+ "-"
             +:+ or_empty (max_price c)
    else url in
  let url :=
    if truthy_int (rooms c)
    then url +:+ "&rooms=" +:+ str_int (default 0 (rooms c)) +:+ "-" else url in
  let url :=
    if truthy_int (min_surface c)
    then url +:+ "&square=" +:+ str_int (default 0 (min_surface c)) +:+ "-"
             +:+ or_empty (max_surface c)
    else url in
  url.

(** [SeLogerScraper.build_search_url]. *)
Definition seloger_build_search_url (c : SearchCriteria) : string :=
  let url := "https://www.seloger.com" +:+ "/list.htm?types=1&natures=1,2,4" in
  let url :=
    if truthy_str (location c)
    then url +:+ "&places=" +:+ default ""%string (location c) else url in
  let url :=
    if truthy_int (min_price c) && truthy_int (max_price c)
    then url +:+ "&price=" +:+ str_int (default 0 (min_price c)) +:+ "/"
             +:+ str_int (default 0 (max_price c))
    else if truthy_int (min_price c)
    then url +:+ "&price=" +:+ str_int (default 0 (min_price c)) +:+ "/NaN"
    else url in
  let url :=
    if truthy_int (min_surface c) && truthy_int (max_surface c)
    then url +:+ "&surface=" +:+ str_int (default 0 (min_surface c)) +:+ "/"
             +:+ str_int (default 0 (max_surface c))
    else if truthy_int (min_surface c)
    then url +:+ "&surface=" +:+ str_int (default 0 (min_surface c)) +:+ "/NaN"
    else url in
  let url :=
    if truthy_int (rooms c)
    then url +:+ "&rooms=" +:+ str_int (default 0 (rooms c)) else url in
  url.

(** ** [scrape_listings] *)

(** What the browser does in one scrape: whether the driver starts, what
    loading a url and looking for the listing containers gives ([None]
    when either raises), and whether each of the two [driver.quit()]
    calls goes through. *)
Record browser : Type := {
  driver_starts : bool;
  page : string → option (list element);
  quit_ok : bool;
  quit_again_ok : bool
}.

(** The loop over the elements: a parsed listing (a dictionary that is
    never empty) is appended, a rejected one is passed over; the [i]-th
    element parsed uses the draws [rs i]. *)
Fixpoint parse_elements (es : list element) (rs : nat → draws) (i : nat) : list doc :=
  match es with
  | [] => []
  | e :: es' =>
      match parse_listing_element e (rs i) with
      | Some listing => listing :: parse_elements es' rs (S i)
      | None => parse_elements es' rs (S i)
      end
  end.

(** [LeBonCoinScraper.scrape_listings].  The handler reads [driver]: when
    the driver did not start, the name is unbound and the handler itself
    raises; otherwise it quits the driver, which may raise again. *)
Definition leboncoin_scrape_listings (b : browser) (rs : nat → draws)
    (c : SearchCriteria) : result (list doc) :=
  if driver_starts b then
    match page b (leboncoin_build_search_url c) with
    | Some listing_elements =>
        let listings := parse_elements (take 10 listing_elements) rs 0 in
        if quit_ok b then Ok listings
        else if quit_again_ok b then Ok listings
        else Raise WebDriverException
    | None =>
        if quit_again_ok b then Ok [] else Raise WebDriverException
    end
  else Raise UnboundLocalError.

(** The values drawn for one fabricated SeLoger listing, in source order. *)
Record seloger_draws : Type := {
  sl_uuid : string;
  sl_title_rooms : Z;
  sl_price : Z;
  sl_surface : Z;
  sl_rooms : Z;
  sl_bedrooms : Z;
  sl_district : Z;
  sl_photo : Z;
  sl_now : Z;
  sl_days_ago : Z;
  sl_furnished : bool;
  sl_charges : Z;
  sl_floor : Z;
  sl_balcony : bool;
  sl_parking : bool;
  sl_pets : bool;
  sl_url_uuid : string
}.

Definition seloger_listing (r : seloger_draws) : doc :=
  list_to_map [
    ("id", VStr (sl_uuid r));
    ("title", VStr ("Appartement " +:+ str_int (sl_title_rooms r) +:+ " pièces - SeLoger"));
    ("price", VInt (sl_price r));
    ("surface", VInt (sl_surface r));
    ("rooms", VInt (sl_rooms r));
    ("bedrooms", VInt (sl_bedrooms r));
    ("address", VStr ("750" +:+ str_int_02 (sl_district r) +:+ " Paris, Île-de-France"));
    ("description", VStr "Bel appartement situé dans un quartier recherché...");
    ("images", VList ["https://images.unsplash.com/photo-" +:+ str_int (sl_photo r) +:+ "?w=400"]);
    ("source", VStr "SeLoger");
    ("published_at", VDatetime (sl_now r - days (sl_days_ago r)));
    ("furnished", VBool (sl_furnished r));
    ("charges", VInt (sl_charges r));
    ("floor", VInt (sl_floor r));
    ("balcony", VBool (sl_balcony r));
    ("parking", VBool (sl_parking r));
    ("pets", VBool (sl_pets r));
    ("url", VStr ("https://www.seloger.com" +:+ "/annonces/fake-" +:+ sl_url_uuid r))
  ]%string.

(** [SeLogerScraper.scrape_listings]: [count] is the number drawn for
    [range(...)], the [i]-th listing uses the draws [rs i]. *)
Definition seloger_scrape_listings (count : Z) (rs : nat → seloger_draws) : list doc :=
  map (λ i, seloger_listing (rs i)) (seq 0 (Z.to_nat count)).

(** How a scrape that returned or raised looks to the orchestrator. *)
Definition as_outcome (r : result (list doc)) : scrape_outcome :=
  match r with
  | Ok ls => Returns ls
  | Raise e => Raises e
  end.

(** One pass over the two registered scrapers, in registration order. *)
Definition registered_scrapers (b : browser) (rs : nat → draws)
    (count : Z) (srs : nat → seloger_draws) (c : SearchCriteria)
  : list (string * scrape_outcome) :=
  [("leboncoin"%string, as_outcome (leboncoin_scrape_listings b rs c));
   ("seloger"%string, Returns (seloger_scrape_listings count srs))].

(** ** Listing details and favorites *)

Definition raise {A : Type} (e : exn) : M A := λ w, (Raise e, w).

(** [try: m except Exception as e: raise HTTPException(status_code=500)]. *)
Definition or_500 {St A : Type} (m : St → result A * St) : St → result A * St := λ s,
  match m s with
  | (Ok a, s') => (Ok a, s')
  | (Raise _, s') => (Raise (HTTPException 500), s')
  end.

(** The [try] block of [get_listing_details]; a document the store
    returns is never empty. *)
Definition get_listing_details_body (rt : runtime) (listing_id : string) : M doc :=
  listing ← find_one rt [("id"%string, CEq (VStr listing_id))];
  match listing with
  | None => raise (HTTPException 404)
  | Some listing => mret (delete "_id"%string listing)
  end.

(** [get_listing_details]: the 404 raised inside the [try] is an
    [Exception] too. *)
Definition get_listing_details (rt : runtime) (listing_id : string)
  : world → result doc * world :=
  or_500 (get_listing_details_body rt listing_id).

(** The store with its second collection, [db.favorites]. *)
Record site : Type := {
  store : world;
  favorites : list doc
}.

Definition SiteM (A : Type) : Type := site → result A * site.

#[global] Instance SiteM_ret : MRet SiteM := λ A a s, (Ok a, s).
#[global] Instance SiteM_bind : MBind SiteM := λ A B f m s,
  match m s with
  | (Ok a, s') => f a s'
  | (Raise e, s') => (Raise e, s')
  end.

(** A call on the [listings] collection. *)
Definition on_listings {A : Type} (m : M A) : SiteM A := λ s,
  let '(r, w) := m (store s) in (r, {| store := w; favorites := favorites s |}).

(** A round trip to the store about the [favorites] collection. *)
Definition fav_call {A : Type} (op : list doc → result A * list doc) : SiteM A := λ s,
  let w := store s in
  match faults w with
  | true :: fs =>
      (Raise StoreError,
       {| store := {| listings := listings w; faults := fs |};
          favorites := favorites s |})
  | false :: fs =>
      let '(r, favs) := op (favorites s) in
      (r, {| store := {| listings := listings w; faults := fs |}; favorites := favs |})
  | [] =>
      let '(r, favs) := op (favorites s) in
      (r, {| store := {| listings := listings w; faults := [] |}; favorites := favs |})
  end.

(** [delete_one(q)]: the first matching document goes. *)
Fixpoint delete_first (rt : runtime) (q : query) (ds : list doc) : list doc :=
  match ds with
  | [] => []
  | d :: ds' => if matches rt q d then ds' else d :: delete_first rt q ds'
  end.

Definition favorite_entry (listing_id : string) (now : Z) : doc :=
  list_to_map [("listing_id", VStr listing_id); ("added_at", VDatetime now)]%string.

(** [add_to_favorites]; [now] is [datetime.now()]. *)
Definition add_to_favorites (listing_id : string) (now : Z) : site → result string * site :=
  or_500 (_ ← fav_call (λ favs, (Ok tt, favs ++ [favorite_entry listing_id now]));
          mret "Added to favorites"%string).

(** [remove_from_favorites]. *)
Definition remove_from_favorites (rt : runtime) (listing_id : string)
  : site → result string * site :=
  or_500 (_ ← fav_call (λ favs,
                 (Ok tt, delete_first rt [("listing_id"%string, CEq (VStr listing_id))] favs));
          mret "Removed from favorites"%string).

(** The loop of [get_favorites] over the favorites read. *)
Fixpoint collect_favorites (rt : runtime) (favs : list doc) : SiteM (list doc) :=
  match favs with
  | [] => mret []
  | fav :: rest =>
      listing_id ← (λ s, (getitem fav "listing_id", s));
      listing ← on_listings (find_one rt [("id"%string, CEq listing_id)]);
      others ← collect_favorites rt rest;
      mret (match listing with
            | Some listing => delete "_id"%string listing :: others
            | None => others
            end)
  end.

(** [get_favorites]. *)
Definition get_favorites (rt : runtime) : site → result (list doc) * site :=
  or_500 (favs ← fav_call (λ favs, (Ok favs, favs));
          collect_favorites rt favs).

(** ** Fixtures *)

(** ASCII lower-casing, a literal substring search standing for the
    regular expression engine, and a decimal rendering of timestamps: a
    runtime to evaluate the definitions on. *)
Definition ascii_lower (a : ascii) : ascii :=
  let n := nat_of_ascii a in
  if ((65 <=? n) && (n <=? 90))%nat then ascii_of_nat (n + 32) else a.

Fixpoint lower_ascii (s : string) : string :=
  match s with
  | EmptyString => EmptyString
  | String a s' => String (ascii_lower a) (lower_ascii s')
  end.

Definition demo_runtime : runtime := {|
  str_lower := lower_ascii;
  regex_compile_i := λ p, Some (λ s, contains (lower_ascii p) (lower_ascii s));
  isoformat := λ t, pretty t
|}.

(** A store that never fails. *)
Definition calm (ds : list doc) : world := {| listings := ds; faults := [] |}.

(** Criteria that constrain one dimension only. *)
Definition with_prices (lo hi : option Z) : SearchCriteria := {|
  location := None;
  property_type := Some "appartement"%string;
  rooms := None;
  min_surface := None;
  max_surface := None;
  min_price := lo;
  max_price := hi;
  furnished := None;
  charges := Some "excluded"%string;
  bedrooms := None;
  floor := None;
  balcony := Some false;
  parking := Some false;
  pets := Some false
|}.

Definition with_rooms (r : option Z) : SearchCriteria := {|
  location := None;
  property_type := Some "appartement"%string;
  rooms := r;
  min_surface := None;
  max_surface := None;
  min_price := None;
  max_price := None;
  furnished := None;
  charges := Some "excluded"%string;
  bedrooms := None;
  floor := None;
  balcony := Some false;
  parking := Some false;
  pets := Some false
|}.

(** The criteria with the rooms criterion taken out. *)
Definition without_rooms (c : SearchCriteria) : SearchCriteria := {|
  location := location c;
  property_type := property_type c;
  rooms := None;
  min_surface := min_surface c;
  max_surface := max_surface c;
  min_price := min_price c;
  max_price := max_price c;
  furnished := furnished c;
  charges := charges c;
  bedrooms := bedrooms c;
  floor := floor c;
  balcony := balcony c;
  parking := parking c;
  pets := pets c
|}.

(** A stored listing as a scraper yields it, reduced to the fields the
    filters and the reconciler read. *)
Definition flat (id source title : string) (price rooms surface : Z) : doc :=
  list_to_map [
    ("id", VStr id); ("source", VStr source); ("title", VStr title);
    ("price", VInt price); ("rooms", VInt rooms); ("surface", VInt surface)
  ]%string.

(** The same with the adapter's own identifier. *)
Definition flat_ext (id source external_id title : string) (price : Z) : doc :=
  <["external_id"%string := VStr external_id]> (flat id source title price 2 40).

(** Fifty-one three-room listings. *)
Definition crowded_store : list doc :=
  map (λ i : nat, flat (pretty i) "SeLoger" "T3" 1000 3 60) (seq 0 51).


(** Draws for one parsed element and for one set of samples. *)
Definition some_draws : draws := {|
  uuid := "0b4c"; surface_draw := 42; rooms_draw := 2; bedrooms_draw := 1;
  now_draw := 0; furnished_draw := false; charges_draw := 90; floor_draw := 1;
  balcony_draw := false; parking_draw := false; pets_draw := false
|}.

Definition some_sample_draws : sample_draws := {|
  uuid_1 := "u1"; now_1 := 0; uuid_2 := "u2"; uuid_3 := "u3"; now_2 := 0;
  uuid_4 := "u4"; uuid_5 := "u5"; now_3 := 0; uuid_6 := "u6"
|}.

(** ** Notions the properties are stated with *)

(** What a scraper contributes to the aggregate. *)
Definition contribution (o : scrape_outcome) : list doc :=
  match o with
  | Returns ls => ls
  | Raises _ => []
  | RaisesBase => []
  end.

(** A scraper whose scrape does not return. *)
Definition failed (so : string * scrape_outcome) : Prop :=
  ∀ ls, so.2 ≠ Returns ls.

(** The number of stored records a filter selects. *)
Definition count_matching (rt : runtime) (q : query) (ds : list doc) : nat :=
  length (List.filter (matches rt q) ds).

(** A record that carries no external identifier. *)
Definition lacks_external_id (d : doc) : bool :=
  match d !! "external_id"%string with
  | None => true
  | Some VNone => true
  | Some _ => false
  end.

(** The records a listing without external identifier is matched with:
    those of its source that carry no external identifier either. *)
Definition anonymous_of (src : value) (d : doc) : bool :=
  lacks_external_id d && eq_match src (d !! "source"%string).

(** Following the words of the specification: a listing matches the
    criteria when its address holds the location whatever the case, its
    price and its surface are within the bounds, and it has at least the
    rooms asked for; a criterion that is unset, zero or empty constrains
    nothing. *)
Definition int_of (d : doc) (k : string) : Z :=
  match d !! k with
  | Some (VInt n) => n
  | _ => 0
  end.

Definition str_of (d : doc) (k : string) : string :=
  match d !! k with
  | Some (VStr s) => s
  | _ => ""%string
  end.

Definition at_least (criterion : option Z) (n : Z) : bool :=
  if truthy_int criterion then default 0 criterion <=? n else true.

Definition at_most (criterion : option Z) (n : Z) : bool :=
  if truthy_int criterion then n <=? default 0 criterion else true.

Definition matches_criteria (rt : runtime) (c : SearchCriteria) (d : doc) : bool :=
  (if truthy_str (location c)
   then contains (str_lower rt (default ""%string (location c)))
                 (str_lower rt (str_of d "address"))
   else true)
  && at_least (min_price c) (int_of d "price")
  && at_most (max_price c) (int_of d "price")
  && at_least (rooms c) (int_of d "rooms")
  && at_least (min_surface c) (int_of d "surface")
  && at_most (max_surface c) (int_of d "surface").

(** A listing with the fields the filter loop reads, of the right types. *)
Definition well_typed (d : doc) : Prop :=
  (∃ a, d !! "address"%string = Some (VStr a))
  ∧ (∃ p, d !! "price"%string = Some (VInt p))
  ∧ (∃ n, d !! "rooms"%string = Some (VInt n))
  ∧ (∃ s, d !! "surface"%string = Some (VInt s)).

(** A listing as a scraper of this code base yields it: no external
    identifier, a source name and a title. *)
Definition anonymous_from (s : string) (d : doc) : Prop :=
  d !! "external_id"%string = None
  ∧ d !! "source"%string = Some (VStr s)
  ∧ is_Some (d !! "title"%string).

(** The source a document names. *)
Definition source_of (d : doc) : value := dict_get d "source".

(** The criteria with another maximum price, another maximum surface. *)
Definition set_max_price (m : option Z) (c : SearchCriteria) : SearchCriteria := {|
  location := location c;
  property_type := property_type c;
  rooms := rooms c;
  min_surface := min_surface c;
  max_surface := max_surface c;
  min_price := min_price c;
  max_price := m;
  furnished := furnished c;
  charges := charges c;
  bedrooms := bedrooms c;
  floor := floor c;
  balcony := balcony c;
  parking := parking c;
  pets := pets c
|}.

Definition set_max_surface (m : option Z) (c : SearchCriteria) : SearchCriteria := {|
  location := location c;
  property_type := property_type c;
  rooms := rooms c;
  min_surface := min_surface c;
  max_surface := m;
  min_price := min_price c;
  max_price := max_price c;
  furnished := furnished c;
  charges := charges c;
  bedrooms := bedrooms c;
  floor := floor c;
  balcony := balcony c;
  parking := parking c;
  pets := pets c
|}.

(** An element with every node, and the price text given. *)
Definition priced_element (price_text : string) : element := {|
  aditem_title := Some "Studio"%string;
  aditem_price := Some price_text;
  aditem_location := Some " Paris 75011 "%string;
  img_src := Some (Some "https://img.leboncoin.fr/1.jpg"%string);
  a_href := Some (Some "https://www.leboncoin.fr/ad/1"%string)
|}.

(** A browser that works and finds the given elements. *)
Definition working_browser (es : list element) : browser := {|
  driver_starts := true;
  page := λ _, Some es;
  quit_ok := true;
  quit_again_ok := true
|}.

(** A browser whose driver does not start. *)
Definition dead_browser : browser := {|
  driver_starts := false;
  page := λ _, None;
  quit_ok := true;
  quit_again_ok := true
|}.

Definition some_seloger_draws : seloger_draws := {|
  sl_uuid := "5e10"; sl_title_rooms := 3; sl_price := 1500; sl_surface := 60;
  sl_rooms := 3; sl_bedrooms := 2; sl_district := 7; sl_photo := 1600000000000;
  sl_now := 0; sl_days_ago := 2; sl_furnished := true; sl_charges := 120;
  sl_floor := 4; sl_balcony := true; sl_parking := false; sl_pets := false;
  sl_url_uuid := "77aa"
|}.

(** A site whose store never fails. *)
Definition calm_site (ds favs : list doc) : site :=
  {| store := calm ds; favorites := favs |}.

(** ** Properties *)

(** *** Store and monad steps *)

Lemma db_call_calm {A : Type} (op : list doc → result A * list doc) (ds : list doc) :
  db_call op (calm ds) = ((op ds).1, calm (op ds).2).
Proof. unfold db_call, calm; simpl. by destruct (op ds). Qed.

Lemma In_elem_of {A : Type} (x : A) (l : list A) : In x l ↔ x ∈ l.
Proof. symmetry. apply list_elem_of_In. Qed.

(** What [find] hands back is a prefix of the matching documents. *)
Lemma find_result (rt : runtime) (q : query) (n : nat) (w : world) (found : list doc) :
  (find rt q n w).1 = Ok found →
  found = take n (List.filter (matches rt q) (listings w)).
Proof.
  unfold find, db_call.
  destruct (faults w) as [|[] fs]; simpl; destruct (query_ok rt q); simpl;
    intros H; by inversion H.
Qed.

Lemma serialize_listing_lookup (rt : runtime) (d d' : doc) (k : string) :
  serialize_listing rt d = Ok d' →
  k ≠ "_id"%string → k ≠ "published_at"%string →
  d' !! k = d !! k.
Proof.
  unfold serialize_listing. intros H H1 H2.
  destruct (delete "_id"%string d !! "published_at"%string) as [[]|] eqn:E;
    inversion H; subst; clear H.
  - rewrite lookup_insert_ne by done. by rewrite lookup_delete_ne.
  - by rewrite lookup_delete_ne.
Qed.

(** The read loop answers element by element. *)
Lemma serialize_all_Forall2 (rt : runtime) (ds out : list doc) :
  serialize_all rt ds = Ok out →
  Forall2 (λ d d', serialize_listing rt d = Ok d') ds out.
Proof.
  revert out. induction ds as [|d ds IH]; simpl; intros out H.
  - inversion H. constructor.
  - destruct (serialize_listing rt d) as [d'|] eqn:E; [|done].
    destruct (serialize_all rt ds) as [out'|]; [|done].
    inversion H; subst. constructor; auto.
Qed.

(** Every listing [get_cached_listings] returns is the serialized form of
    a stored document that matches the filter. *)
Lemma get_cached_listings_sound (rt : runtime) (c : SearchCriteria) (w : world) (d' : doc) :
  d' ∈ (get_cached_listings rt c w).1 →
  ∃ d, d ∈ listings w ∧ matches rt (cache_query c) d = true
       ∧ serialize_listing rt d = Ok d'.
Proof.
  unfold get_cached_listings, try_except, get_cached_listings_body.
  unfold mbind, M_bind, lift.
  destruct (find rt (cache_query c) LIMIT w) as [[found|e] w1] eqn:F; simpl;
    [|by intros ?%elem_of_nil].
  destruct (serialize_all rt found) as [out|] eqn:S; simpl;
    [|by intros ?%elem_of_nil].
  intros Hin.
  apply serialize_all_Forall2 in S.
  destruct (proj1 (list_elem_of_lookup _ _) Hin) as [i Hi].
  destruct (Forall2_lookup_r _ _ _ _ _ S Hi) as (d & Hd & Hser).
  assert (Hd' : d ∈ found) by (eapply list_elem_of_lookup_2; eauto).
  pose proof (find_result rt (cache_query c) LIMIT w found) as Hf. rewrite F in Hf.
  specialize (Hf eq_refl). subst found.
  apply subseteq_take, In_elem_of, filter_In in Hd' as [Hd1 Hd2].
  exists d. split_and!; [by apply In_elem_of|done|done].
Qed.

(** A clause of the filter holds of every matching document. *)
Lemma matches_clause (rt : runtime) (q : query) (d : doc) (k : string) (cl : clause) :
  matches rt q d = true → (k, cl) ∈ q → clause_match rt cl (d !! k) = true.
Proof.
  unfold matches. rewrite forallb_forall. intros H Hin.
  apply In_elem_of in Hin. by apply (H (k, cl)).
Qed.

Lemma range_match_spec (a b : option Z) (field : option value) :
  range_match a b field = true →
  ∃ n, field = Some (VInt n)
       ∧ (∀ x, a = Some x → x ≤ n) ∧ (∀ y, b = Some y → n ≤ y).
Proof.
  unfold range_match. destruct field as [[]|]; try done.
  intros [H1 H2]%andb_true_iff. eexists; split; [done|]. split.
  - intros x ->. lia.
  - intros y ->. lia.
Qed.

Lemma truthy_int_Some (m : Z) : m ≠ 0 → truthy_int (Some m) = true.
Proof. intros H. simpl. apply negb_true_iff. lia. Qed.

Lemma bound_Some (m : Z) : m ≠ 0 → bound (Some m) = Some m.
Proof. intros H. unfold bound. by rewrite truthy_int_Some. Qed.

(** C9: whatever the criteria and whatever the store holds, the cache
    lookup returns at most 50 listings. *)
Theorem get_cached_listings_at_most_50 (rt : runtime) (c : SearchCriteria) (w : world) :
  (length (get_cached_listings rt c w).1 ≤ 50)%nat.
Proof.
  unfold get_cached_listings, try_except, get_cached_listings_body.
  unfold mbind, M_bind, lift.
  destruct (find rt (cache_query c) LIMIT w) as [[found|e] w1] eqn:F; simpl; [|lia].
  destruct (serialize_all rt found) as [out|] eqn:S; simpl; [|lia].
  apply serialize_all_Forall2, Forall2_length in S. rewrite <- S.
  pose proof (find_result rt (cache_query c) LIMIT w found) as Hf. rewrite F in Hf.
  rewrite (Hf eq_refl), length_take. unfold LIMIT. lia.
Qed.

(** *** The cache filter *)

Lemma price_clause_in_query (c : SearchCriteria) :
  truthy_int (min_price c) || truthy_int (max_price c) = true →
  ("price"%string, CRange (bound (min_price c)) (bound (max_price c))) ∈ cache_query c.
Proof.
  intros H. unfold cache_query. rewrite H.
  apply elem_of_app. right. apply elem_of_app. left. apply list_elem_of_singleton. done.
Qed.

Lemma rooms_clause_in_query (c : SearchCriteria) :
  truthy_int (rooms c) = true →
  ("rooms"%string, CRange (rooms c) None) ∈ cache_query c.
Proof.
  intros H. unfold cache_query. rewrite H.
  do 2 (apply elem_of_app; right). apply elem_of_app. left.
  apply list_elem_of_singleton. done.
Qed.

(** The filter is the filter without the rooms criterion, plus the rooms
    threshold when the criterion is truthy. *)
Lemma matches_cache_query_rooms (rt : runtime) (c : SearchCriteria) (d : doc) :
  matches rt (cache_query c) d
  = matches rt (cache_query (without_rooms c)) d
    && (if truthy_int (rooms c) then range_match (rooms c) None (d !! "rooms"%string)
        else true).
Proof.
  unfold matches, cache_query; simpl.
  rewrite !forallb_app.
  destruct (truthy_int (rooms c)); simpl;
    repeat match goal with |- context [forallb ?f ?l] => destruct (forallb f l) end;
    simpl; try done;
    by destruct (range_match (rooms c) None (d !! "rooms"%string)).
Qed.




Lemma filter_cons_true {A : Type} (f : A → bool) (x : A) (l : list A) :
  f x = true → List.filter f (x :: l) = x :: List.filter f l.
Proof. intros H. simpl. by rewrite H. Qed.

(** A matching document that fewer than [n] matching documents precede is
    part of what [find] reads. *)
Lemma in_take_filter {A : Type} (f : A → bool) (before after : list A) (x : A) (n : nat) :
  f x = true →
  (length (List.filter f before) < n)%nat →
  x ∈ take n (List.filter f (before ++ x :: after)).
Proof.
  intros Hx Hlt. rewrite List.filter_app, (filter_cons_true f x after Hx).
  apply (list_elem_of_lookup_2 _ (length (List.filter f before))).
  rewrite lookup_take_lt by done.
  by rewrite list_lookup_middle.
Qed.

Lemma get_cached_listings_ok (rt : runtime) (c : SearchCriteria) (w : world) (out : list doc) :
  (get_cached_listings_body rt c w).1 = Ok out →
  (get_cached_listings rt c w).1 = out
  ∧ serialize_all rt (take LIMIT (List.filter (matches rt (cache_query c)) (listings w)))
    = Ok out.
Proof.
  unfold get_cached_listings, try_except.
  destruct (get_cached_listings_body rt c w) as [[o|e] w1] eqn:B; simpl; [|done].
  intros [= ->]. split; [done|].
  unfold get_cached_listings_body, mbind, M_bind, lift in B.
  destruct (find rt (cache_query c) LIMIT w) as [[found|e] w2] eqn:F; [|done].
  pose proof (find_result rt (cache_query c) LIMIT w found) as Hf.
  rewrite F in Hf. rewrite <- (Hf eq_refl). by inversion B.
Qed.

(** C8, amended: a rooms criterion that is set and not zero is a minimum,
    so every returned listing has at least that many rooms, and a stored
    listing with that many rooms or more that meets the other criteria is
    returned when fewer than 50 matching records precede it in the store
    and the lookup raises nothing. *)
Theorem rooms_is_a_threshold (rt : runtime) (c : SearchCriteria) (w : world) (r : Z) :
  rooms c = Some r → r ≠ 0 →
  (∀ d, d ∈ (get_cached_listings rt c w).1 →
     ∃ n, d !! "rooms"%string = Some (VInt n) ∧ r ≤ n)
  ∧ (∀ d n before after out,
       d !! "rooms"%string = Some (VInt n) → r ≤ n →
       matches rt (cache_query (without_rooms c)) d = true →
       listings w = before ++ d :: after →
       (length (List.filter (matches rt (cache_query c)) before) < 50)%nat →
       (get_cached_listings_body rt c w).1 = Ok out →
       ∃ d', serialize_listing rt d = Ok d' ∧ d' ∈ (get_cached_listings rt c w).1).
Proof.
  intros Hr Hnz. split.
  - intros d (d0 & _ & Hm & Hs)%get_cached_listings_sound.
    assert (Ht : truthy_int (rooms c) = true) by (by rewrite Hr, truthy_int_Some).
    pose proof (matches_clause _ _ _ _ _ Hm (rooms_clause_in_query c Ht)) as Hc.
    simpl in Hc. apply range_match_spec in Hc as (n & Hf & Ha & _).
    exists n. rewrite (serialize_listing_lookup rt d0 d) by done.
    split; [done|]. by apply Ha.
  - intros d n before after out Hn Hle Hother Hstore Hlt Hbody.
    assert (Hm : matches rt (cache_query c) d = true).
    { rewrite matches_cache_query_rooms, Hother, Hr, truthy_int_Some by done.
      simpl. rewrite Hn. simpl. rewrite andb_true_r. lia. }
    apply get_cached_listings_ok in Hbody as [-> Hser].
    rewrite Hstore in Hser.
    pose proof (in_take_filter _ before after d LIMIT Hm Hlt) as Hin.
    apply serialize_all_Forall2 in Hser.
    apply list_elem_of_lookup in Hin as [i Hi].
    destruct (Forall2_lookup_l _ _ _ _ _ Hser Hi) as (d' & Hd' & Hs).
    exists d'. split; [done|]. by eapply list_elem_of_lookup_2.
Qed.

Lemma rooms_is_a_threshold_witness :
  let d := flat "a" "SeLoger" "T4" 1200 4 80 in
  let w := calm [flat "b" "SeLoger" "T1" 700 1 20; d] in
  let c := with_rooms (Some 2) in
  (∀ d0, d0 ∈ (get_cached_listings demo_runtime c w).1 →
     ∃ n, d0 !! "rooms"%string = Some (VInt n) ∧ 2 ≤ n)
  ∧ ∃ d', serialize_listing demo_runtime d = Ok d'
          ∧ d' ∈ (get_cached_listings demo_runtime c w).1.
Proof.
  intros d w c.
  destruct (rooms_is_a_threshold demo_runtime c w 2) as [H1 H2];
    [reflexivity | lia |].
  split; [exact H1|].
  apply (H2 d 4 [flat "b" "SeLoger" "T1" 700 1 20] [] [d]);
    [reflexivity | lia | reflexivity | reflexivity | vm_compute; lia | reflexivity].
Defined.

(** C8 as stated fails: of fifty-one stored three-room listings, a search
    for two rooms does not return the last. *)
Lemma rooms_threshold_cut_by_limit :
  let d := flat "50" "SeLoger" "T3" 1000 3 60 in
  let c := with_rooms (Some 2) in
  d ∈ crowded_store
  ∧ d !! "rooms"%string = Some (VInt 3) ∧ 2 < 3
  ∧ matches demo_runtime (cache_query (without_rooms c)) d = true
  ∧ serialize_listing demo_runtime d = Ok d
  ∧ d ∉ (get_cached_listings demo_runtime c (calm crowded_store)).1.
Proof.
  intros d c. split_and!; [ |done|lia|done|done| ].
  - apply (list_elem_of_lookup_2 _ 50). reflexivity.
  - apply (bool_decide_eq_false_1 (d ∈ _)). vm_compute. reflexivity.
Qed.

(** A rooms criterion of zero is no criterion. *)
Example rooms_zero_filters_nothing :
  let d := delete "rooms"%string (flat "a" "SeLoger" "T2" 1200 2 45) in
  (get_cached_listings demo_runtime (with_rooms (Some 0)) (calm [d])).1 = [d].
Proof. reflexivity. Qed.

(** *** The orchestrator *)

Lemma extend_with_app (acc : list doc) (run : list (string * scrape_outcome)) :
  extend_with acc (map (λ so, scrape_source_with_error_handling so.1 so.2) run)
  = acc ++ concat (map (λ so, contribution so.2) run).
Proof.
  revert acc. induction run as [|[name o] run IH]; intros acc; simpl.
  - by rewrite app_nil_r.
  - destruct o; simpl; rewrite IH; by rewrite ?app_nil_r, ?app_assoc.
Qed.

Lemma failed_contribute_nothing (run : list (string * scrape_outcome)) :
  Forall failed run → concat (map (λ so, contribution so.2) run) = [].
Proof.
  induction 1 as [|[name o] run Hf _ IH]; simpl; [done|].
  rewrite IH, app_nil_r. destruct o; try done. by destruct (Hf ls).
Qed.

(** C4: the aggregate is the concatenation, in registration order, of the
    lists of the scrapers that returned; a scraper that fails adds
    nothing and takes nothing away, whichever side of the successful one
    it is registered on, and when every scraper fails the aggregate is
    empty. *)
Theorem scrape_all_sources_isolates_failures (run : list (string * scrape_outcome)) :
  scrape_all_sources run = concat (map (λ so, contribution so.2) run)
  ∧ (Forall failed run → scrape_all_sources run = [])
  ∧ (∀ before after name ls,
       run = before ++ (name, Returns ls) :: after →
       Forall failed before → Forall failed after →
       scrape_all_sources run = ls).
Proof.
  assert (E : scrape_all_sources run = concat (map (λ so, contribution so.2) run))
    by apply (extend_with_app []).
  split_and!; [done| |].
  - intros H. by rewrite E, failed_contribute_nothing.
  - intros before after name ls -> Hb Ha.
    rewrite E, map_app, concat_app; simpl.
    by rewrite !failed_contribute_nothing, app_nil_r.
Qed.

Lemma scrape_all_sources_isolates_failures_witness :
  let three := [flat "a" "SeLoger" "T1" 800 1 25;
                flat "b" "SeLoger" "T2" 1200 2 45;
                flat "c" "SeLoger" "T3" 1800 3 70] in
  scrape_all_sources [("leboncoin"%string, Raises TimeoutException);
                      ("seloger"%string, Returns three)] = three
  ∧ scrape_all_sources [("leboncoin"%string, Raises TimeoutException);
                        ("seloger"%string, RaisesBase)] = [].
Proof.
  intros three. split.
  - apply (scrape_all_sources_isolates_failures _)
      with (before := [("leboncoin"%string, Raises TimeoutException)]) (after := [])
           (name := "seloger"%string);
      [reflexivity | | constructor].
    constructor; [intros ls; discriminate | constructor].
  - apply (scrape_all_sources_isolates_failures _).
    repeat constructor; intros ls; discriminate.
Defined.

(** *** Reconciliation *)

Lemma identity_query_Some (listing : doc) (src : value) :
  listing !! "source"%string = Some src →
  identity_query listing = Ok (identity_filter (dict_get listing "external_id") src).
Proof. intros H. unfold identity_query, getitem. by rewrite H. Qed.

(** On a store that does not fail, [reconcile] inserts at the end when no
    record matches and patches the first matching record otherwise. *)
Lemma reconcile_calm (rt : runtime) (ds : list doc) (listing : doc) (src : value) :
  listing !! "source"%string = Some src →
  is_Some (listing !! "title"%string) →
  let q := identity_filter (dict_get listing "external_id") src in
  reconcile rt listing (calm ds)
  = (Ok tt, calm (match List.find (matches rt q) ds with
                  | None => ds ++ [listing]
                  | Some _ => set_first rt q listing ds
                  end)).
Proof.
  intros Hsrc [title Htitle] q. unfold reconcile.
  rewrite (identity_query_Some listing src Hsrc). fold q.
  unfold mbind, M_bind, lift, find_one. rewrite db_call_calm. simpl.
  destruct (List.find (matches rt q) ds) as [d|].
  - unfold update_one. rewrite db_call_calm. simpl.
    unfold getitem. by rewrite Htitle.
  - unfold insert_one. rewrite db_call_calm. simpl.
    unfold getitem. by rewrite Htitle.
Qed.

Lemma eq_match_refl (v : value) : eq_match v (Some v) = true.
Proof.
  destruct v; unfold eq_match; try (by apply bool_decide_eq_true_2).
  apply orb_true_iff. left. by apply bool_decide_eq_true_2.
Qed.




(** The first matching record sits at some index, nothing before it
    matches, and the update rewrites that index only. *)
Lemma set_first_insert (rt : runtime) (q : query) (patch : doc) (ds : list doc) (d : doc) :
  List.find (matches rt q) ds = Some d →
  ∃ i : nat, ds !! i = Some d
    ∧ (∀ (j : nat) d', (j < i)%nat → ds !! j = Some d' → matches rt q d' = false)
    ∧ set_first rt q patch ds = <[i := patch ∪ d]> ds.
Proof.
  induction ds as [|x ds IH]; simpl; [done|].
  destruct (matches rt q x) eqn:E.
  - intros [= ->]. exists 0%nat. split_and!; [done| |done]. intros; lia.
  - intros H. destruct (IH H) as (i & Hi & Hbefore & Hset).
    exists (S i). split_and!; [done| |by rewrite Hset].
    intros [|j] d' Hlt Hj; simpl in Hj.
    + by inversion Hj; subst.
    + apply (Hbefore j); [lia|done].
Qed.




(** The scenario of the specification: the same identity reconciled with
    1000 and then 1100 leaves one record, priced 1100. *)
Example reconcile_twice_scenario :
  let l1 := flat_ext "a" "X" "42" "T2" 1000 in
  let l2 := flat_ext "b" "X" "42" "T2" 1100 in
  reconcile_all demo_runtime [l1; l2] (calm []) = (Ok tt, calm [l2])
  ∧ l2 !! "price"%string = Some (VInt 1100).
Proof. split; reflexivity. Qed.

(** C2, amended: an update writes every field the incoming listing
    carries over the matched record, [id] included.  The record's [id]
    afterwards is the incoming listing's [id] when it has one; it is the
    [id] from before only when the incoming listing carries none or the
    same one. *)
Theorem update_overwrites_id
    (rt : runtime) (ds : list doc) (listing d : doc) (src : value) :
  listing !! "source"%string = Some src →
  is_Some (listing !! "title"%string) →
  List.find (matches rt (identity_filter (dict_get listing "external_id") src)) ds = Some d →
  ∃ i : nat,
    ds !! i = Some d
    ∧ reconcile rt listing (calm ds) = (Ok tt, calm (<[i := listing ∪ d]> ds))
    ∧ (∀ v, listing !! "id"%string = Some v → (listing ∪ d) !! "id"%string = Some v)
    ∧ (listing !! "id"%string = None ∨ listing !! "id"%string = d !! "id"%string →
       (listing ∪ d) !! "id"%string = d !! "id"%string).
Proof.
  intros Hs Ht Hfind.
  destruct (set_first_insert rt _ listing ds d Hfind) as (i & Hi & _ & Hset).
  exists i. split_and!; [done| | |].
  - rewrite (reconcile_calm rt ds listing src Hs Ht). simpl.
    by rewrite Hfind, Hset.
  - intros v Hv. by apply lookup_union_Some_l.
  - intros [Hn|He].
    + by apply lookup_union_r.
    + destruct (listing !! "id"%string) as [v|] eqn:E.
      * rewrite <- He. by apply lookup_union_Some_l.
      * by apply lookup_union_r.
Qed.

Lemma update_overwrites_id_witness :
  let stored := flat_ext "id-1" "X" "42" "T2" 1000 in
  let incoming := delete "id"%string (flat_ext "id-2" "X" "42" "T2" 1100) in
  ∃ i : nat,
    [stored] !! i = Some stored
    ∧ reconcile demo_runtime incoming (calm [stored])
      = (Ok tt, calm (<[i := incoming ∪ stored]> [stored]))
    ∧ (∀ v, incoming !! "id"%string = Some v →
         (incoming ∪ stored) !! "id"%string = Some v)
    ∧ (incoming !! "id"%string = None
       ∨ incoming !! "id"%string = stored !! "id"%string →
       (incoming ∪ stored) !! "id"%string = stored !! "id"%string).
Proof.
  intros stored incoming.
  apply (update_overwrites_id demo_runtime [stored] incoming stored (VStr "X"));
    first [reflexivity | eexists; reflexivity].
Defined.

(** C2 as stated fails: a stored record with id [id-1] has id [id-2]
    after a reconciliation that matches it. *)
Lemma reconcile_changes_stored_id :
  let stored := flat_ext "id-1" "X" "42" "T2" 1000 in
  let incoming := flat_ext "id-2" "X" "42" "T2" 1100 in
  stored !! "id"%string = Some (VStr "id-1")
  ∧ List.find (matches demo_runtime (identity_filter (VStr "42") (VStr "X"))) [stored]
    = Some stored
  ∧ ∃ after,
      reconcile demo_runtime incoming (calm [stored]) = (Ok tt, calm [after])
      ∧ after !! "id"%string = Some (VStr "id-2")
      ∧ after !! "id"%string ≠ stored !! "id"%string.
Proof.
  intros stored incoming. split_and!; [done|done|].
  exists incoming. split_and!; [reflexivity|done|done].
Qed.

Lemma matches_anonymous (rt : runtime) (src : value) (d : doc) :
  matches rt (identity_filter VNone src) d = anonymous_of src d.
Proof.
  unfold matches, identity_filter, anonymous_of, lacks_external_id. simpl.
  rewrite andb_true_r. f_equal.
  destruct (d !! "external_id"%string) as [[]|]; done.
Qed.

Lemma find_ext {A : Type} (f g : A → bool) (l : list A) :
  (∀ x, f x = g x) → List.find f l = List.find g l.
Proof.
  intros H. induction l as [|x l IH]; simpl; [done|]. by rewrite H, IH.
Qed.

Lemma find_none_Forall {A : Type} (f : A → bool) (l : list A) :
  Forall (λ x, f x = false) l → List.find f l = None.
Proof. induction 1 as [|x l Hx _ IH]; simpl; [done|]. by rewrite Hx. Qed.

(** C5, amended: a listing without [external_id] is looked up with
    [external_id = None], which selects the stored records of its source
    that carry no external identifier.  When there is none, the listing is
    inserted; when there is one, the first of them is updated in place and
    nothing is inserted. *)
Theorem reconcile_without_external_id
    (rt : runtime) (ds : list doc) (listing : doc) (src : value) :
  listing !! "external_id"%string = None →
  listing !! "source"%string = Some src →
  is_Some (listing !! "title"%string) →
  (Forall (λ d, anonymous_of src d = false) ds →
   reconcile rt listing (calm ds) = (Ok tt, calm (ds ++ [listing])))
  ∧ (∀ d, List.find (anonymous_of src) ds = Some d →
     ∃ i : nat, ds !! i = Some d
       ∧ reconcile rt listing (calm ds) = (Ok tt, calm (<[i := listing ∪ d]> ds))).
Proof.
  intros He Hs Ht.
  assert (Hg : dict_get listing "external_id" = VNone)
    by (unfold dict_get; by rewrite He).
  pose proof (reconcile_calm rt ds listing src Hs Ht) as R. rewrite Hg in R.
  simpl in R.
  assert (Hf : List.find (matches rt (identity_filter VNone src)) ds
               = List.find (anonymous_of src) ds)
    by (apply find_ext, matches_anonymous).
  split.
  - intros Hnone. by rewrite R, Hf, (find_none_Forall _ _ Hnone).
  - intros d Hd. rewrite <- Hf in Hd.
    destruct (set_first_insert rt _ listing ds d Hd) as (i & Hi & _ & Hset).
    exists i. split; [done|]. by rewrite R, Hd, Hset.
Qed.

Lemma reconcile_without_external_id_witness :
  let a := flat "a" "SeLoger" "T2" 1200 2 45 in
  let b := flat "b" "LeBonCoin" "T3" 1800 3 70 in
  let c := flat "c" "SeLoger" "T1" 800 1 25 in
  reconcile demo_runtime b (calm [a]) = (Ok tt, calm [a; b])
  ∧ ∃ i : nat, [a] !! i = Some a
      ∧ reconcile demo_runtime c (calm [a]) = (Ok tt, calm (<[i := c ∪ a]> [a])).
Proof.
  intros a b c. split.
  - apply (reconcile_without_external_id demo_runtime [a] b (VStr "LeBonCoin"));
      first [reflexivity | eexists; reflexivity | idtac].
    repeat constructor.
  - apply (reconcile_without_external_id demo_runtime [a] c (VStr "SeLoger"));
      first [reflexivity | eexists; reflexivity].
Defined.

(** C5 as stated fails: a second listing without external identifier from
    the same source takes the update path and replaces the first. *)
Lemma reconcile_without_external_id_updates :
  let a := flat "a" "SeLoger" "T2" 1200 2 45 in
  let c := flat "c" "SeLoger" "T1" 800 1 25 in
  a !! "external_id"%string = None ∧ c !! "external_id"%string = None
  ∧ reconcile demo_runtime c (calm [a]) = (Ok tt, calm [c])
  ∧ [c] ≠ [a; c].
Proof. intros a c. split_and!; [done|done|reflexivity|done]. Qed.

(** *** Failure of the store during a batch *)






(** *** Price extraction *)








(** *** Sample listings *)

Lemma int_test_ltb (criterion : option Z) (d : doc) (k : string) (n : Z) :
  d !! k = Some (VInt n) →
  int_test criterion d k Z.ltb = Ok (negb (at_least criterion (int_of d k))).
Proof.
  intros H. unfold int_test, at_least, int_of, get_int, getitem. rewrite H.
  destruct (truthy_int criterion); simpl; [|done].
  by rewrite Z.ltb_antisym.
Qed.

Lemma int_test_gtb (criterion : option Z) (d : doc) (k : string) (n : Z) :
  d !! k = Some (VInt n) →
  int_test criterion d k Z.gtb = Ok (negb (at_most criterion (int_of d k))).
Proof.
  intros H. unfold int_test, at_most, int_of, get_int, getitem. rewrite H.
  destruct (truthy_int criterion); simpl; [|done].
  by rewrite Z.gtb_ltb, Z.ltb_antisym.
Qed.

(** The chain of tests skips exactly the listings that do not match. *)
Lemma skipped_matches_criteria (rt : runtime) (c : SearchCriteria) (d : doc) :
  well_typed d → skipped rt c d = Ok (negb (matches_criteria rt c d)).
Proof.
  intros ([a Ha] & [p Hp] & [n Hn] & [s Hs]).
  unfold skipped, matches_criteria.
  rewrite (int_test_ltb (min_price c) d _ p Hp), (int_test_gtb (max_price c) d _ p Hp),
    (int_test_ltb (rooms c) d _ n Hn), (int_test_ltb (min_surface c) d _ s Hs),
    (int_test_gtb (max_surface c) d _ s Hs).
  unfold get_str, getitem, str_of. rewrite Ha. simpl.
  destruct (truthy_str (location c)); simpl;
    repeat match goal with
           | |- context [contains ?x ?y] => destruct (contains x y); simpl
           | |- context [at_least ?x ?y] => destruct (at_least x y); simpl
           | |- context [at_most ?x ?y] => destruct (at_most x y); simpl
           end; done.
Qed.

Lemma filter_samples_matches (rt : runtime) (c : SearchCriteria) (data : list doc) :
  Forall well_typed data →
  filter_samples rt c data = Ok (List.filter (matches_criteria rt c) data).
Proof.
  induction 1 as [|d data Hd _ IH]; simpl; [done|].
  rewrite (skipped_matches_criteria rt c d Hd), IH. simpl.
  by destruct (matches_criteria rt c d).
Qed.

Lemma sample_data_well_typed (rt : runtime) (r : sample_draws) :
  Forall well_typed (sample_data rt r).
Proof. repeat constructor; eexists; reflexivity. Qed.




(** The fallback ignores each kind of constraint. *)
Example fallback_ignores_location :
  let r := some_sample_draws in
  let c := {| location := Some "Lyon"%string; property_type := None; rooms := None;
              min_surface := Some 200; max_surface := None; min_price := None;
              max_price := None; furnished := None; charges := None;
              bedrooms := None; floor := None; balcony := None; parking := None;
              pets := None |} in
  generate_sample_listings demo_runtime r c = Ok (sample_data demo_runtime r)
  ∧ Forall (λ d, contains "lyon" (lower_ascii (str_of d "address")) = false
                 ∧ int_of d "surface" < 200)
      (sample_data demo_runtime r).
Proof. intros r c. split; [reflexivity|]. repeat constructor. Qed.

(** ** Further properties *)

(** *** Parsing one element *)


Lemma is_digit_range (a : ascii) :
  is_digit a = true → 0 ≤ Z.of_nat (nat_of_ascii a) - 48 ≤ 9.
Proof.
  unfold is_digit. intros [H1 H2]%andb_true_iff.
  apply Nat.leb_le in H1, H2. lia.
Qed.

Lemma int_digits_nonneg (s : string) (acc n : Z) :
  0 ≤ acc → int_digits acc s = Some n → 0 ≤ n.
Proof.
  revert acc. induction s as [|a s IH]; intros acc Hacc; simpl.
  - intros [= <-]. done.
  - destruct (is_digit a) eqn:E; [|done].
    apply IH. pose proof (is_digit_range a E). lia.
Qed.

(** The price read off a text is never negative. *)
Lemma extract_price_nonneg (text : string) (p : Z) :
  extract_price text = Ok p → 0 ≤ p.
Proof.
  unfold extract_price, py_int.
  destruct (String.eqb text ""); [by intros [= <-]|].
  destruct (digits_of text) eqn:D; [done|].
  destruct (int_digits 0 (String a s)) as [n|] eqn:E; [|done].
  intros [= <-]. by apply (int_digits_nonneg (String a s) 0 n).
Qed.


(** What the parser does on an element, by cases on its price text. *)
Lemma parse_listing_element_body_found
    (e : element) (r : draws) (t p l : string) (i h : option string) :
  aditem_title e = Some t → aditem_price e = Some p → aditem_location e = Some l →
  img_src e = Some i → a_href e = Some h →
  parse_listing_element_body e r
  = (price ← extract_price (strip p);
     mret (list_to_map [
       ("id", VStr (uuid r));
       ("title", VStr (strip t));
       ("price", VInt price);
       ("surface", VInt (surface_draw r));
       ("rooms", VInt (rooms_draw r));
       ("bedrooms", VInt (bedrooms_draw r));
       ("address", VStr (strip l));
       ("description", VStr (strip t));
       ("images", VList (if truthy_str i then [default "" i] else []));
       ("source", VStr "LeBonCoin");
       ("published_at", VDatetime (now_draw r));
       ("furnished", VBool (furnished_draw r));
       ("charges", VInt (charges_draw r));
       ("floor", VInt (floor_draw r));
       ("balcony", VBool (balcony_draw r));
       ("parking", VBool (parking_draw r));
       ("pets", VBool (pets_draw r));
       ("url", opt_value h)
     ]%string)).
Proof.
  intros Ht Hp Hl Hi Hh. unfold parse_listing_element_body.
  rewrite Ht, Hp, Hl, Hi, Hh. unfold find_element, mbind, result_bind.
  by destruct (extract_price (strip p)).
Qed.

Lemma parse_listing_element_Some (e : element) (r : draws) (d : doc) :
  parse_listing_element e r = Some d →
  anonymous_from "LeBonCoin" d
  ∧ d !! "id"%string = Some (VStr (uuid r))
  ∧ ∃ p, d !! "price"%string = Some (VInt p) ∧ 0 ≤ p.
Proof.
  unfold parse_listing_element.
  destruct (aditem_title e) as [t|] eqn:Ht;
    [|by unfold parse_listing_element_body; rewrite Ht].
  destruct (aditem_price e) as [p|] eqn:Hp;
    [|by unfold parse_listing_element_body; rewrite Ht, Hp].
  destruct (aditem_location e) as [l|] eqn:Hl;
    [|by unfold parse_listing_element_body; rewrite Ht, Hp, Hl].
  destruct (img_src e) as [i|] eqn:Hi;
    [|by unfold parse_listing_element_body; rewrite Ht, Hp, Hl, Hi;
         unfold find_element, mbind, result_bind;
         destruct (extract_price (strip p))].
  destruct (a_href e) as [h|] eqn:Hh;
    [|by unfold parse_listing_element_body; rewrite Ht, Hp, Hl, Hi, Hh;
         unfold find_element, mbind, result_bind;
         destruct (extract_price (strip p))].
  rewrite (parse_listing_element_body_found e r t p l i h) by done.
  destruct (extract_price (strip p)) as [price|] eqn:E; [|done].
  intros [= <-]. split_and!; try reflexivity.
  - by eexists.
  - exists price. split; [reflexivity|]. by apply (extract_price_nonneg (strip p)).
Qed.

(** X1: every listing [parse_listing_element] produces names the source
    LeBonCoin, has a title, carries no external identifier, and has a
    price that is not negative. *)
Theorem parsed_listing_shape (e : element) (r : draws) (d : doc) :
  parse_listing_element e r = Some d →
  anonymous_from "LeBonCoin" d
  ∧ d !! "id"%string = Some (VStr (uuid r))
  ∧ ∃ p, d !! "price"%string = Some (VInt p) ∧ 0 ≤ p.
Proof. apply parse_listing_element_Some. Qed.

Lemma parsed_listing_shape_witness :
  ∃ d, parse_listing_element (priced_element "1 200 EUR") some_draws = Some d
       ∧ anonymous_from "LeBonCoin" d
       ∧ d !! "id"%string = Some (VStr (uuid some_draws))
       ∧ ∃ p, d !! "price"%string = Some (VInt p) ∧ 0 ≤ p.
Proof.
  eexists. split; [reflexivity|].
  apply (parsed_listing_shape (priced_element "1 200 EUR") some_draws).
  reflexivity.
Defined.









(** *** [LeBonCoinScraper.scrape_listings] *)

Lemma parse_elements_length (es : list element) (rs : nat → draws) (i : nat) :
  (length (parse_elements es rs i) ≤ length es)%nat.
Proof.
  revert i. induction es as [|e es IH]; intros i; simpl; [lia|].
  destruct (parse_listing_element e (rs i)); simpl; specialize (IH (S i)); lia.
Qed.

Lemma parse_elements_Forall (es : list element) (rs : nat → draws) (i : nat) :
  Forall (λ d, anonymous_from "LeBonCoin" d
               ∧ ∃ p, d !! "price"%string = Some (VInt p) ∧ 0 ≤ p)
    (parse_elements es rs i).
Proof.
  revert i. induction es as [|e es IH]; intros i; simpl; [constructor|].
  destruct (parse_listing_element e (rs i)) as [d|] eqn:E; [|apply IH].
  constructor; [|apply IH].
  by destruct (parse_listing_element_Some e (rs i) d E) as (? & _ & ?).
Qed.

Lemma leboncoin_scrape_listings_Ok
    (b : browser) (rs : nat → draws) (c : SearchCriteria) (ls : list doc) :
  leboncoin_scrape_listings b rs c = Ok ls →
  (length ls ≤ 10)%nat
  ∧ Forall (λ d, anonymous_from "LeBonCoin" d
                 ∧ ∃ p, d !! "price"%string = Some (VInt p) ∧ 0 ≤ p) ls.
Proof.
  unfold leboncoin_scrape_listings.
  destruct (driver_starts b); [|done].
  destruct (page b (leboncoin_build_search_url c)) as [es|].
  - assert (H : ∀ ls, ls = parse_elements (take 10 es) rs 0 →
                 (length ls ≤ 10)%nat
                 ∧ Forall (λ d, anonymous_from "LeBonCoin" d
                                ∧ ∃ p, d !! "price"%string = Some (VInt p) ∧ 0 ≤ p) ls).
    { intros ? ->. split; [|apply parse_elements_Forall].
      pose proof (parse_elements_length (take 10 es) rs 0) as Hl.
      rewrite length_take in Hl. lia. }
    destruct (quit_ok b); [by intros [= <-]; apply H|].
    destruct (quit_again_ok b); [by intros [= <-]; apply H|done].
  - destruct (quit_again_ok b); [|done]. intros [= <-].
    split; [simpl; lia|constructor].
Qed.

(** X4: when the LeBonCoin scrape returns, it returns at most ten
    listings, whatever the page holds, and each of them names the source
    LeBonCoin, has a title, no external identifier and a price that is
    not negative. *)
Theorem leboncoin_scrape_listings_bounded
    (b : browser) (rs : nat → draws) (c : SearchCriteria) (ls : list doc) :
  leboncoin_scrape_listings b rs c = Ok ls →
  (length ls ≤ 10)%nat
  ∧ Forall (λ d, anonymous_from "LeBonCoin" d
                 ∧ ∃ p, d !! "price"%string = Some (VInt p) ∧ 0 ≤ p) ls.
Proof. apply leboncoin_scrape_listings_Ok. Qed.

Lemma leboncoin_scrape_listings_bounded_witness :
  let es := replicate 12 (priced_element "950") in
  ∃ ls, leboncoin_scrape_listings (working_browser es) (λ _, some_draws) default_criteria
        = Ok ls
        ∧ (length ls ≤ 10)%nat
        ∧ Forall (λ d, anonymous_from "LeBonCoin" d
                       ∧ ∃ p, d !! "price"%string = Some (VInt p) ∧ 0 ≤ p) ls.
Proof.
  intros es. eexists. split; [reflexivity|].
  apply (leboncoin_scrape_listings_bounded (working_browser es) (λ _, some_draws)
           default_criteria).
  reflexivity.
Defined.

(** X5: the LeBonCoin scrape raises exactly when the driver does not
    start, or when the second [quit] fails after the page or the first
    [quit] failed.  A driver that does not start gives an
    [UnboundLocalError] out of the handler; a page that fails with a
    driver that quits gives the empty list.  Whatever it raises, the
    orchestrator still returns every SeLoger listing. *)
Theorem leboncoin_scrape_failure_modes
    (b : browser) (rs : nat → draws) (c : SearchCriteria) :
  (driver_starts b = false →
   leboncoin_scrape_listings b rs c = Raise UnboundLocalError)
  ∧ (driver_starts b = true → page b (leboncoin_build_search_url c) = None →
     quit_again_ok b = true → leboncoin_scrape_listings b rs c = Ok [])
  ∧ ((∃ e, leboncoin_scrape_listings b rs c = Raise e)
     ↔ driver_starts b = false
       ∨ (quit_again_ok b = false
          ∧ (page b (leboncoin_build_search_url c) = None ∨ quit_ok b = false)))
  ∧ (∀ e count srs,
       leboncoin_scrape_listings b rs c = Raise e →
       scrape_all_sources (registered_scrapers b rs count srs c)
       = seloger_scrape_listings count srs).
Proof.
  split_and!.
  - intros H. unfold leboncoin_scrape_listings. by rewrite H.
  - intros H1 H2 H3. unfold leboncoin_scrape_listings. by rewrite H1, H2, H3.
  - unfold leboncoin_scrape_listings.
    destruct (driver_starts b); [|split; [by left|by eexists]].
    destruct (page b (leboncoin_build_search_url c)) as [es|];
      destruct (quit_ok b), (quit_again_ok b); split;
      try (by intros [e He]);
      try (by intros [?|[? [?|?]]]);
      try (by intros _; right; auto);
      try (by intros _; eexists).
  - intros e count srs H. unfold registered_scrapers. rewrite H.
    unfold scrape_all_sources. simpl. done.
Qed.

Lemma leboncoin_scrape_failure_modes_witness :
  leboncoin_scrape_listings dead_browser (λ _, some_draws) default_criteria
  = Raise UnboundLocalError
  ∧ scrape_all_sources
      (registered_scrapers dead_browser (λ _, some_draws) 2 (λ _, some_seloger_draws)
         default_criteria)
    = seloger_scrape_listings 2 (λ _, some_seloger_draws).
Proof.
  destruct (leboncoin_scrape_failure_modes dead_browser (λ _, some_draws) default_criteria)
    as (H1 & _ & _ & H4).
  split; [by apply H1|].
  by apply (H4 UnboundLocalError), H1.
Defined.

(** *** Search urls *)

Lemma surface_clause_in_query (c : SearchCriteria) :
  truthy_int (min_surface c) || truthy_int (max_surface c) = true →
  ("surface"%string, CRange (bound (min_surface c)) (bound (max_surface c)))
  ∈ cache_query c.
Proof.
  intros H. unfold cache_query. rewrite H.
  do 3 (apply elem_of_app; right). apply list_elem_of_here.
Qed.

(** X6: in both search urls a maximum price counts only beside a minimum
    price, and a maximum surface only beside a minimum surface: without
    the minimum, the url is the same whatever the maximum, while the
    cache filter of the same criteria does bound the price from above. *)
Theorem search_urls_drop_lone_maximum (c : SearchCriteria) (m : option Z) :
  (truthy_int (min_price c) = false →
   leboncoin_build_search_url (set_max_price m c) = leboncoin_build_search_url c
   ∧ seloger_build_search_url (set_max_price m c) = seloger_build_search_url c
   ∧ (truthy_int m = true →
      ("price"%string, CRange None m) ∈ cache_query (set_max_price m c)))
  ∧ (truthy_int (min_surface c) = false →
     leboncoin_build_search_url (set_max_surface m c) = leboncoin_build_search_url c
     ∧ seloger_build_search_url (set_max_surface m c) = seloger_build_search_url c
     ∧ (truthy_int m = true →
        ("surface"%string, CRange None m) ∈ cache_query (set_max_surface m c))).
Proof.
  split; intros H; unfold leboncoin_build_search_url, seloger_build_search_url;
    simpl; rewrite H; split_and!; try done; intros Hm.
  - pose proof (price_clause_in_query (set_max_price m c)) as P.
    unfold bound in P. simpl in P. rewrite H, Hm in P. by apply P.
  - pose proof (surface_clause_in_query (set_max_surface m c)) as P.
    unfold bound in P. simpl in P. rewrite H, Hm in P. by apply P.
Qed.

Lemma search_urls_drop_lone_maximum_witness :
  leboncoin_build_search_url (with_prices None (Some 1500))
  = leboncoin_build_search_url (with_prices None None)
  ∧ seloger_build_search_url (with_prices None (Some 1500))
    = seloger_build_search_url (with_prices None None)
  ∧ ("price"%string, CRange None (Some 1500)) ∈ cache_query (with_prices None (Some 1500)).
Proof.
  destruct (search_urls_drop_lone_maximum (with_prices None None) (Some 1500))
    as [H _].
  destruct (H eq_refl) as (H1 & H2 & H3).
  split_and!; [exact H1 | exact H2 | exact (H3 eq_refl)].
Defined.

(** *** The cache lookup, further *)

Lemma find_listings (rt : runtime) (q : query) (n : nat) (w : world) :
  listings (find rt q n w).2 = listings w.
Proof.
  unfold find, db_call.
  destruct (faults w) as [|[] fs]; simpl; destruct (query_ok rt q); done.
Qed.

Lemma get_cached_listings_listings (rt : runtime) (c : SearchCriteria) (w : world) :
  listings (get_cached_listings rt c w).2 = listings w.
Proof.
  unfold get_cached_listings, try_except, get_cached_listings_body.
  unfold mbind, M_bind, lift.
  pose proof (find_listings rt (cache_query c) LIMIT w) as H.
  destruct (find rt (cache_query c) LIMIT w) as [[found|e] w1]; simpl in *; [|done].
  by destruct (serialize_all rt found).
Qed.

(** X7: the cache lookup reads only: whatever the criteria and the
    outcome, the [listings] collection is the same afterwards. *)
Theorem get_cached_listings_reads_only (rt : runtime) (c : SearchCriteria) (w : world) :
  listings (get_cached_listings rt c w).2 = listings w.
Proof. apply get_cached_listings_listings. Qed.

(** The sample generator always answers, and never with nothing. *)
Lemma generate_sample_listings_total (rt : runtime) (r : sample_draws) (c : SearchCriteria) :
  ∃ out, generate_sample_listings rt r c = Ok out ∧ out ≠ [].
Proof.
  unfold generate_sample_listings.
  rewrite (filter_samples_matches rt c _ (sample_data_well_typed rt r)).
  eexists. split; [reflexivity|].
  by destruct (List.filter (matches_criteria rt c) (sample_data rt r)).
Qed.

(** X8: no listing the cache lookup returns carries the store's [_id],
    and a [published_at] it carries is a string. *)
Theorem get_cached_listings_serializable
    (rt : runtime) (c : SearchCriteria) (w : world) (d : doc) :
  d ∈ (get_cached_listings rt c w).1 →
  d !! "_id"%string = None
  ∧ ∀ v, d !! "published_at"%string = Some v → ∃ s, v = VStr s.
Proof.
  intros (d0 & _ & _ & Hs)%get_cached_listings_sound.
  unfold serialize_listing in Hs.
  destruct (delete "_id"%string d0 !! "published_at"%string) as [[]|] eqn:E;
    inversion Hs; subst; clear Hs.
  - split.
    + rewrite lookup_insert_ne by done. apply lookup_delete_eq.
    + intros v. rewrite lookup_insert_eq. intros [= <-]. by eexists.
  - split; [apply lookup_delete_eq|]. intros v Hv. by rewrite E in Hv.
Qed.

Lemma get_cached_listings_serializable_witness :
  let stored := <["_id"%string := VInt 7]>
                  (<["published_at"%string := VDatetime 1000]>
                     (flat "a" "SeLoger" "T2" 1200 2 45)) in
  ∃ d, d ∈ (get_cached_listings demo_runtime default_criteria (calm [stored])).1
       ∧ d !! "_id"%string = None
       ∧ ∀ v, d !! "published_at"%string = Some v → ∃ s, v = VStr s.
Proof.
  intros stored.
  assert (H : ∃ d, d ∈ (get_cached_listings demo_runtime default_criteria
                          (calm [stored])).1).
  { eexists. vm_compute. apply list_elem_of_here. }
  destruct H as [d Hd]. exists d. split; [exact Hd|].
  exact (get_cached_listings_serializable demo_runtime default_criteria
           (calm [stored]) d Hd).
Defined.

Lemma serialize_all_fails (rt : runtime) (ds : list doc) (d : doc) (v : value) :
  d ∈ ds → d !! "published_at"%string = Some v → (∀ t, v ≠ VDatetime t) →
  ∃ e, serialize_all rt ds = Raise e.
Proof.
  intros Hin Hv Hnd. induction ds as [|x ds IH]; [by apply elem_of_nil in Hin|].
  simpl. apply elem_of_cons in Hin as [<-|Hin].
  - unfold serialize_listing. rewrite lookup_delete_ne by done. rewrite Hv.
    destruct v; try by eexists. by destruct (Hnd t).
  - destruct (serialize_listing rt x); [|by eexists].
    destruct (IH Hin) as [e ->]. by eexists.
Qed.

(** X9: one matching record among the first fifty whose [published_at]
    is not a datetime empties the whole answer of the cache lookup. *)
Theorem get_cached_listings_all_or_nothing
    (rt : runtime) (c : SearchCriteria) (w : world) (d : doc) (v : value) :
  d ∈ take LIMIT (List.filter (matches rt (cache_query c)) (listings w)) →
  d !! "published_at"%string = Some v → (∀ t, v ≠ VDatetime t) →
  (get_cached_listings rt c w).1 = [].
Proof.
  intros Hin Hv Hnd.
  unfold get_cached_listings, try_except, get_cached_listings_body.
  unfold mbind, M_bind, lift.
  destruct (find rt (cache_query c) LIMIT w) as [[found|e] w1] eqn:F; simpl; [|done].
  pose proof (find_result rt (cache_query c) LIMIT w found) as Hf.
  rewrite F in Hf. specialize (Hf eq_refl). subst found.
  by destruct (serialize_all_fails rt _ d v Hin Hv Hnd) as [e ->].
Qed.

Lemma get_cached_listings_all_or_nothing_witness :
  let good := <["published_at"%string := VDatetime 1000]>
                (flat "a" "SeLoger" "T2" 1200 2 45) in
  let bad := <["published_at"%string := VStr "2024-01-01T00:00:00"]>
               (flat "b" "SeLoger" "T3" 1800 3 70) in
  (get_cached_listings demo_runtime default_criteria (calm [good; bad])).1 = [].
Proof.
  intros good bad.
  apply (get_cached_listings_all_or_nothing demo_runtime default_criteria
           (calm [good; bad]) bad (VStr "2024-01-01T00:00:00")).
  - apply (list_elem_of_lookup_2 _ 1). reflexivity.
  - reflexivity.
  - discriminate.
Defined.

Lemma address_clause_in_query (c : SearchCriteria) (loc : string) :
  location c = Some loc → loc ≠ ""%string →
  ("address"%string, CRegexI loc) ∈ cache_query c.
Proof.
  intros H Hne. unfold cache_query. rewrite H. simpl.
  rewrite (proj2 (String.eqb_neq _ _) Hne). simpl. apply list_elem_of_here.
Qed.

(** X10: every listing the cache lookup returns has a surface within the
    surface bounds that are set and not zero, the bounds included, and
    when a location that is not empty is given, an address (or an element
    of an address array) in which the location, read as a pattern, is
    found. *)
Theorem get_cached_listings_surface_and_location
    (rt : runtime) (c : SearchCriteria) (w : world) (d : doc) :
  d ∈ (get_cached_listings rt c w).1 →
  (∀ lo, min_surface c = Some lo → lo ≠ 0 →
     ∃ s, d !! "surface"%string = Some (VInt s) ∧ lo ≤ s)
  ∧ (∀ hi, max_surface c = Some hi → hi ≠ 0 →
     ∃ s, d !! "surface"%string = Some (VInt s) ∧ s ≤ hi)
  ∧ (∀ loc, location c = Some loc → loc ≠ ""%string →
     ∃ search, regex_compile_i rt loc = Some search
       ∧ ((∃ a, d !! "address"%string = Some (VStr a) ∧ search a = true)
          ∨ (∃ l a, d !! "address"%string = Some (VList l) ∧ a ∈ l ∧ search a = true))).
Proof.
  intros (d0 & _ & Hm & Hs)%get_cached_listings_sound.
  assert (Hsurf : d !! "surface"%string = d0 !! "surface"%string)
    by (by apply (serialize_listing_lookup rt)).
  assert (Haddr : d !! "address"%string = d0 !! "address"%string)
    by (by apply (serialize_listing_lookup rt)).
  split_and!.
  - intros lo Hlo Hnz.
    assert (Ht : truthy_int (min_surface c) || truthy_int (max_surface c) = true)
      by (by rewrite Hlo, truthy_int_Some).
    pose proof (matches_clause _ _ _ _ _ Hm (surface_clause_in_query c Ht)) as Hc.
    simpl in Hc. apply range_match_spec in Hc as (s & Hf & Ha & _).
    exists s. rewrite Hsurf. split; [done|]. apply Ha. by rewrite Hlo, bound_Some.
  - intros hi Hhi Hnz.
    assert (Ht : truthy_int (min_surface c) || truthy_int (max_surface c) = true)
      by (rewrite Hhi, (truthy_int_Some hi) by done; apply orb_true_r).
    pose proof (matches_clause _ _ _ _ _ Hm (surface_clause_in_query c Ht)) as Hc.
    simpl in Hc. apply range_match_spec in Hc as (s & Hf & _ & Hb).
    exists s. rewrite Hsurf. split; [done|]. apply Hb. by rewrite Hhi, bound_Some.
  - intros loc Hloc Hne.
    pose proof (matches_clause _ _ _ _ _ Hm (address_clause_in_query c loc Hloc Hne)) as Hc.
    simpl in Hc. unfold regex_match in Hc.
    destruct (regex_compile_i rt loc) as [search|]; [|done].
    exists search. split; [done|]. rewrite Haddr.
    destruct (d0 !! "address"%string) as [[]|]; try done.
    + left. by eexists.
    + right. apply existsb_exists in Hc as (a & Ha & Hsa).
      exists l, a. split_and!; [done| |done]. by apply In_elem_of.
Qed.

Lemma get_cached_listings_surface_and_location_witness :
  let d := <["address"%string := VStr "75011 Paris"]>
             (flat "a" "SeLoger" "T2" 1200 2 45) in
  let c := {| location := Some "paris"%string; property_type := None; rooms := None;
              min_surface := Some 40; max_surface := Some 80; min_price := None;
              max_price := None; furnished := None; charges := None;
              bedrooms := None; floor := None; balcony := None; parking := None;
              pets := None |} in
  d ∈ (get_cached_listings demo_runtime c (calm [d])).1
  ∧ (∃ s, d !! "surface"%string = Some (VInt s) ∧ 40 ≤ s)
  ∧ (∃ s, d !! "surface"%string = Some (VInt s) ∧ s ≤ 80).
Proof.
  intros d c.
  assert (H : d ∈ (get_cached_listings demo_runtime c (calm [d])).1)
    by (vm_compute; apply list_elem_of_here).
  destruct (get_cached_listings_surface_and_location demo_runtime c (calm [d]) d H)
    as (H1 & H2 & _).
  split_and!; [exact H | by apply (H1 40) | by apply (H2 80)].
Defined.

(** *** The search route *)

(** X11: the search route never fails and never changes the listings: it
    answers with at least one listing and with their number as total;
    the answer is marked cached exactly when the cache lookup found
    something, in which case it is what the lookup found, and a refresh
    is queued exactly when it is not marked cached. *)
Theorem search_apartments_always_answers
    (rt : runtime) (r : sample_draws) (c : SearchCriteria) (w : world) :
  ∃ resp queued w',
    search_apartments rt r c w = (Ok (resp, queued), w')
    ∧ listings w' = listings w
    ∧ resp_listings resp ≠ []
    ∧ resp_total resp = length (resp_listings resp)
    ∧ queued = negb (resp_cached resp)
    ∧ (resp_cached resp = true ↔ (get_cached_listings rt c w).1 ≠ [])
    ∧ (resp_cached resp = true →
       resp_listings resp = (get_cached_listings rt c w).1).
Proof.
  unfold search_apartments.
  pose proof (get_cached_listings_listings rt c w) as Hro.
  destruct (get_cached_listings rt c w) as [cached w'] eqn:C. simpl in *.
  destruct cached as [|x cached].
  - destruct (generate_sample_listings_total rt r c) as (out & G & Hne).
    rewrite G. eexists _, _, _. split; [reflexivity|]. simpl.
    split_and!; try done.
  - eexists _, _, _. split; [reflexivity|]. simpl.
    split_and!; try done.
Qed.

(** X12: when the store call of the lookup fails, the search route
    answers as on a cache miss: the samples, not marked cached, a refresh
    queued, whatever the store holds. *)
Theorem search_apartments_store_down
    (rt : runtime) (r : sample_draws) (c : SearchCriteria) (w : world) (fs : list bool) :
  faults w = true :: fs →
  ∃ resp,
    search_apartments rt r c w
    = (Ok (resp, true), {| listings := listings w; faults := fs |})
    ∧ resp_cached resp = false
    ∧ generate_sample_listings rt r c = Ok (resp_listings resp).
Proof.
  intros Hf. unfold search_apartments.
  assert (C : get_cached_listings rt c w
              = ([], {| listings := listings w; faults := fs |})).
  { unfold get_cached_listings, try_except, get_cached_listings_body.
    unfold mbind, M_bind, find, db_call. by rewrite Hf. }
  rewrite C.
  destruct (generate_sample_listings_total rt r c) as (out & G & _).
  rewrite G. by eexists.
Qed.

Lemma search_apartments_store_down_witness :
  let w := {| listings := [flat "a" "SeLoger" "T2" 1200 2 45]; faults := [true] |} in
  ∃ resp,
    search_apartments demo_runtime some_sample_draws default_criteria w
    = (Ok (resp, true), {| listings := listings w; faults := [] |})
    ∧ resp_cached resp = false
    ∧ generate_sample_listings demo_runtime some_sample_draws default_criteria
      = Ok (resp_listings resp).
Proof.
  intros w.
  apply (search_apartments_store_down demo_runtime some_sample_draws default_criteria w []).
  reflexivity.
Defined.

Lemma search_apartments_always_answers_witness :
  let w := calm [flat "a" "SeLoger" "T2" 1200 2 45] in
  ∃ resp queued w',
    search_apartments demo_runtime some_sample_draws (with_rooms (Some 2)) w
    = (Ok (resp, queued), w')
    ∧ resp_cached resp = true
    ∧ resp_listings resp
      = (get_cached_listings demo_runtime (with_rooms (Some 2)) w).1.
Proof.
  intros w.
  destruct (search_apartments_always_answers demo_runtime some_sample_draws
              (with_rooms (Some 2)) w)
    as (resp & queued & w' & Hs & _ & _ & _ & _ & Hc & Hl).
  exists resp, queued, w'.
  assert (Hcached : resp_cached resp = true) by (apply Hc; discriminate).
  split_and!; [exact Hs | exact Hcached | exact (Hl Hcached)].
Defined.

(** *** Reconciliation, further *)

Lemma set_first_length (rt : runtime) (q : query) (patch : doc) (ds : list doc) :
  length (set_first rt q patch ds) = length ds.
Proof.
  induction ds as [|d ds IH]; simpl; [done|].
  destruct (matches rt q d); simpl; by rewrite ?IH.
Qed.

(** One reconciliation, whatever the store does, keeps every position of
    the collection occupied and adds at most one record. *)
Lemma reconcile_length (rt : runtime) (l : doc) (w : world) :
  (length (listings w) ≤ length (listings (reconcile rt l w).2)
   ≤ S (length (listings w)))%nat.
Proof.
  unfold reconcile, identity_query, getitem, find_one, insert_one, update_one,
    db_call, lift, mbind, mret, M_bind, M_ret, result_bind, result_ret.
  destruct w as [ds fs]; simpl.
  repeat (case_match; simplify_eq; simpl in *; try lia);
    rewrite ?set_first_length, ?length_app; simpl; lia.
Qed.

Lemma reconcile_all_length (rt : runtime) (batch : list doc) (w : world) :
  (length (listings w) ≤ length (listings (reconcile_all rt batch w).2)
   ≤ length (listings w) + length batch)%nat.
Proof.
  revert w. induction batch as [|l batch IH]; intros w; simpl; [lia|].
  unfold mbind, M_bind.
  pose proof (reconcile_length rt l w) as H1.
  destruct (reconcile rt l w) as [[[]|e] w1]; simpl in *; [|lia].
  specialize (IH w1). lia.
Qed.

(** X13: the background task never removes a record: whatever the
    scrapers yield and whatever store calls fail, the collection holds at
    least as many records afterwards, and at most one more per listing
    scraped. *)
Theorem scrape_and_cache_never_deletes
    (rt : runtime) (run : list (string * scrape_outcome)) (w : world) :
  (length (listings w)
   ≤ length (listings (scrape_and_cache_listings rt run w).2)
   ≤ length (listings w) + length (scrape_all_sources run))%nat.
Proof.
  unfold scrape_and_cache_listings, try_except.
  pose proof (reconcile_all_length rt (scrape_all_sources run) w) as H.
  by destruct (reconcile_all rt (scrape_all_sources run) w) as [[[]|e] w1].
Qed.

(** The store as the scrapers of this code base fill it: records without
    external identifier, each naming a source, no two the same source. *)
Lemma source_of_anonymous (s : string) (d : doc) :
  anonymous_from s d → source_of d = VStr s.
Proof. intros (_ & H & _). unfold source_of, dict_get. by rewrite H. Qed.

Lemma anonymous_of_source (s : string) (d : doc) (s' : string) :
  d !! "external_id"%string = None → d !! "source"%string = Some (VStr s') →
  anonymous_of (VStr s) d = bool_decide (s = s').
Proof.
  intros He Hs. unfold anonymous_of, lacks_external_id. rewrite He, Hs. simpl.
  apply bool_decide_ext. split; [by intros [= ->]|by intros ->].
Qed.

Lemma find_Some_elem {A : Type} (f : A → bool) (l : list A) (x : A) :
  List.find f l = Some x → x ∈ l ∧ f x = true.
Proof.
  intros H. apply find_some in H as [H1 H2]. split; [by apply In_elem_of|done].
Qed.

Lemma find_None_elem {A : Type} (f : A → bool) (l : list A) (x : A) :
  List.find f l = None → x ∈ l → f x = false.
Proof.
  intros H Hin. apply In_elem_of in Hin. by apply (find_none f l H x).
Qed.

(** One reconciliation of a listing without external identifier into a
    store of such records, one per source. *)
Lemma reconcile_anonymous_step
    (rt : runtime) (ds : list doc) (l : doc) (s : string) :
  anonymous_from s l →
  Forall (λ d, ∃ s', anonymous_from s' d) ds →
  NoDup (source_of <$> ds) →
  ∃ ds', reconcile rt l (calm ds) = (Ok tt, calm ds')
    ∧ Forall (λ d, ∃ s', anonymous_from s' d) ds'
    ∧ NoDup (source_of <$> ds')
    ∧ (∀ v, v ∈ source_of <$> ds' ↔ v = VStr s ∨ v ∈ source_of <$> ds)
    ∧ (∃ r, r ∈ ds' ∧ source_of r = VStr s ∧ ∀ k v, l !! k = Some v → r !! k = Some v)
    ∧ (∀ r, r ∈ ds' → source_of r ≠ VStr s → r ∈ ds).
Proof.
  intros (He & Hs & Ht) Hall Hnd.
  assert (Hg : dict_get l "external_id" = VNone) by (unfold dict_get; by rewrite He).
  pose proof (reconcile_calm rt ds l (VStr s) Hs Ht) as R. rewrite Hg in R.
  simpl in R.
  rewrite (find_ext _ _ ds (matches_anonymous rt (VStr s))) in R.
  destruct (List.find (anonymous_of (VStr s)) ds) as [d|] eqn:F.
  - (* the record of that source is patched in place *)
    assert (Fm : List.find (matches rt (identity_filter VNone (VStr s))) ds = Some d)
      by (by rewrite (find_ext _ _ ds (matches_anonymous rt (VStr s)))).
    destruct (set_first_insert rt _ l ds d Fm) as (i & Hi & _ & Hset).
    apply find_Some_elem in F as [Hd Hmd].
    destruct (proj1 (Forall_forall _ _) Hall d Hd) as (s' & Hde & Hds & Hdt).
    rewrite (anonymous_of_source s d s' Hde Hds) in Hmd.
    apply bool_decide_eq_true_1 in Hmd. subst s'.
    assert (Hsrc : source_of (l ∪ d) = source_of d).
    { unfold source_of, dict_get. by rewrite (lookup_union_Some_l _ _ _ _ Hs), Hds. }
    assert (Hmap : source_of <$> <[i:=l ∪ d]> ds = source_of <$> ds).
    { rewrite list_fmap_insert, Hsrc. apply list_insert_id.
      by rewrite list_lookup_fmap, Hi. }
    exists (<[i:=l ∪ d]> ds). rewrite R, Hset. split_and!; try done.
    + apply Forall_insert; [done|]. exists s. split_and!.
      * apply lookup_union_None. done.
      * by apply lookup_union_Some_l.
      * destruct Ht as [t Ht]. exists t. by apply lookup_union_Some_l.
    + by rewrite Hmap.
    + intros v. rewrite Hmap. split; [by right|].
      intros [->|?]; [|done].
      apply list_elem_of_fmap. exists d. split; [|done].
      unfold source_of, dict_get. by rewrite Hds.
    + exists (l ∪ d). split_and!.
      * apply (list_elem_of_lookup_2 _ i). apply list_lookup_insert_eq.
        by apply lookup_lt_Some in Hi.
      * rewrite Hsrc. unfold source_of, dict_get. by rewrite Hds.
      * intros k v Hk. by apply lookup_union_Some_l.
    + intros r Hr Hne. apply list_elem_of_lookup in Hr as [j Hj].
      destruct (decide (i = j)) as [->|Hij].
      * rewrite list_lookup_insert_eq in Hj by (by apply lookup_lt_Some in Hi).
        inversion Hj; subst. rewrite Hsrc in Hne.
        unfold source_of, dict_get in Hne. by rewrite Hds in Hne.
      * rewrite list_lookup_insert_ne in Hj by done.
        by apply list_elem_of_lookup_2 in Hj.
  - (* no record of that source yet: the listing is appended *)
    assert (Hfresh : VStr s ∉ source_of <$> ds).
    { intros (d & Hd1 & Hd2)%list_elem_of_fmap.
      destruct (proj1 (Forall_forall _ _) Hall d Hd2) as (s' & Hde & Hds & Hdt).
      pose proof (find_None_elem _ _ d F Hd2) as Hn.
      rewrite (anonymous_of_source s d s' Hde Hds) in Hn.
      apply bool_decide_eq_false_1 in Hn. apply Hn.
      unfold source_of, dict_get in Hd1. rewrite Hds in Hd1. by inversion Hd1. }
    assert (Hl : source_of l = VStr s) by (by apply source_of_anonymous).
    exists (ds ++ [l]). rewrite R. split_and!; try done.
    + apply Forall_app. split; [done|]. constructor; [|constructor].
      by exists s.
    + rewrite fmap_app. simpl. rewrite Hl.
      apply NoDup_app. split_and!; [done| |apply NoDup_singleton].
      intros v Hv ->%list_elem_of_singleton. done.
    + intros v. rewrite fmap_app, elem_of_app. simpl. rewrite Hl.
      rewrite list_elem_of_singleton. tauto.
    + exists l. split_and!; [|done|done].
      apply elem_of_app. right. apply list_elem_of_here.
    + intros r [Hr|Hr%list_elem_of_singleton]%elem_of_app Hne; [done|].
      subst r. by rewrite Hl in Hne.
Qed.

Lemma reconcile_all_anonymous
    (rt : runtime) (batch ds : list doc) :
  Forall (λ d, ∃ s, anonymous_from s d) batch →
  Forall (λ d, ∃ s, anonymous_from s d) ds →
  NoDup (source_of <$> ds) →
  ∃ ds', reconcile_all rt batch (calm ds) = (Ok tt, calm ds')
    ∧ Forall (λ d, ∃ s, anonymous_from s d) ds'
    ∧ NoDup (source_of <$> ds')
    ∧ (∀ v, v ∈ source_of <$> ds'
            ↔ v ∈ source_of <$> batch ∨ v ∈ source_of <$> ds).
Proof.
  revert ds. induction batch as [|l batch IH]; intros ds Hb Hall Hnd.
  - exists ds. split_and!; try done. intros v. rewrite fmap_nil, elem_of_nil. tauto.
  - apply Forall_cons in Hb as [[s Hl] Hb].
    destruct (reconcile_anonymous_step rt ds l s Hl Hall Hnd)
      as (ds1 & R1 & Hall1 & Hnd1 & Hset1 & _).
    destruct (IH ds1 Hb Hall1 Hnd1) as (ds' & R & Hall' & Hnd' & Hset').
    exists ds'. split_and!; try done.
    + simpl. unfold mbind, M_bind. by rewrite R1.
    + intros v. rewrite Hset', Hset1, fmap_cons, elem_of_cons.
      rewrite (source_of_anonymous s l Hl). tauto.
Qed.

(** X14: listings without external identifier collapse by source.  A
    batch of such listings reconciled into an empty store that does not
    fail leaves exactly one record per source named in the batch, however
    many listings each source yielded. *)
Theorem anonymous_listings_collapse_by_source (rt : runtime) (batch : list doc) :
  Forall (λ d, ∃ s, anonymous_from s d) batch →
  ∃ ds', reconcile_all rt batch (calm []) = (Ok tt, calm ds')
    ∧ NoDup (source_of <$> ds')
    ∧ (∀ v, v ∈ source_of <$> ds' ↔ v ∈ source_of <$> batch)
    ∧ length ds' = length (remove_dups (source_of <$> batch)).
Proof.
  intros Hb.
  destruct (reconcile_all_anonymous rt batch [] Hb) as (ds' & R & _ & Hnd & Hset);
    [constructor|constructor|].
  assert (Hset' : ∀ v, v ∈ source_of <$> ds' ↔ v ∈ source_of <$> batch).
  { intros v. rewrite Hset, fmap_nil, elem_of_nil. tauto. }
  exists ds'. split_and!; try done.
  rewrite <- (length_fmap source_of ds').
  apply Permutation_length, NoDup_Permutation; [done|apply NoDup_remove_dups|].
  intros v. by rewrite Hset', elem_of_remove_dups.
Qed.

Lemma anonymous_listings_collapse_by_source_witness :
  let batch := [flat "a" "SeLoger" "T2" 1200 2 45; flat "b" "LeBonCoin" "T1" 700 1 20;
                flat "c" "SeLoger" "T3" 1800 3 70; flat "d" "SeLoger" "T4" 2400 4 90] in
  ∃ ds', reconcile_all demo_runtime batch (calm []) = (Ok tt, calm ds')
    ∧ NoDup (source_of <$> ds')
    ∧ (∀ v, v ∈ source_of <$> ds' ↔ v ∈ source_of <$> batch)
    ∧ length ds' = 2%nat.
Proof.
  intros batch.
  apply (anonymous_listings_collapse_by_source demo_runtime batch).
  repeat constructor;
    first [ by exists "SeLoger"%string; split_and!; [reflexivity|reflexivity|eexists; reflexivity]
          | by exists "LeBonCoin"%string; split_and!; [reflexivity|reflexivity|eexists; reflexivity] ].
Defined.

Lemma seloger_listing_anonymous (r : seloger_draws) :
  anonymous_from "SeLoger" (seloger_listing r).
Proof. split_and!; [reflexivity|reflexivity|eexists; reflexivity]. Qed.

Lemma seloger_scrape_listings_anonymous (count : Z) (srs : nat → seloger_draws) :
  Forall (anonymous_from "SeLoger") (seloger_scrape_listings count srs).
Proof.
  unfold seloger_scrape_listings. apply Forall_forall.
  intros d (i & -> & _)%list_elem_of_fmap. apply seloger_listing_anonymous.
Qed.

(** What one pass over the two scrapers hands to the reconciler. *)
Lemma registered_scrapers_yield
    (b : browser) (rs : nat → draws) (count : Z) (srs : nat → seloger_draws)
    (c : SearchCriteria) :
  ∃ ls, scrape_all_sources (registered_scrapers b rs count srs c)
        = ls ++ seloger_scrape_listings count srs
        ∧ Forall (anonymous_from "LeBonCoin") ls
        ∧ (length ls ≤ 10)%nat.
Proof.
  unfold registered_scrapers, scrape_all_sources. simpl.
  destruct (leboncoin_scrape_listings b rs c) as [ls|e] eqn:E; simpl.
  - exists ls. split; [done|].
    destruct (leboncoin_scrape_listings_Ok b rs c ls E) as [Hl Hf].
    split; [|done]. eapply Forall_impl; [exact Hf|]. by intros d [? _].
  - exists []. split_and!; [done|constructor|simpl; lia].
Qed.

(** X15: one background pass over the two registered scrapers into an
    empty store that does not fail leaves at most two records, one per
    scraper that yielded a listing, however many listings were scraped:
    no scraper sets an external identifier. *)
Theorem full_pass_leaves_one_record_per_scraper
    (rt : runtime) (b : browser) (rs : nat → draws) (count : Z)
    (srs : nat → seloger_draws) (c : SearchCriteria) :
  ∃ ds',
    scrape_and_cache_listings rt (registered_scrapers b rs count srs c) (calm [])
    = (tt, calm ds')
    ∧ (length ds' ≤ 2)%nat
    ∧ NoDup (source_of <$> ds')
    ∧ Forall (λ d, source_of d = VStr "LeBonCoin" ∨ source_of d = VStr "SeLoger") ds'.
Proof.
  destruct (registered_scrapers_yield b rs count srs c) as (ls & Hrun & Hls & _).
  pose proof (seloger_scrape_listings_anonymous count srs) as Hsl.
  assert (Hb : Forall (λ d, ∃ s, anonymous_from s d)
                 (ls ++ seloger_scrape_listings count srs)).
  { apply Forall_app. split; (eapply Forall_impl; [eassumption|]);
      intros d Hd; by eexists. }
  destruct (reconcile_all_anonymous rt _ [] Hb) as (ds' & R & _ & Hnd & Hset);
    [constructor|constructor|].
  assert (Hsrc : ∀ v, v ∈ source_of <$> ds' →
                      v ∈ [VStr "LeBonCoin"; VStr "SeLoger"]).
  { intros v [Hv|Hv]%Hset; [|by apply elem_of_nil in Hv].
    apply list_elem_of_fmap in Hv as (d & -> & Hd).
    apply elem_of_app in Hd as [Hd|Hd].
    - rewrite (source_of_anonymous "LeBonCoin" d
                 (proj1 (Forall_forall _ _) Hls d Hd)). apply list_elem_of_here.
    - rewrite (source_of_anonymous "SeLoger" d
                 (proj1 (Forall_forall _ _) Hsl d Hd)).
      apply list_elem_of_further, list_elem_of_here. }
  exists ds'. split_and!.
  - unfold scrape_and_cache_listings, try_except. by rewrite Hrun, R.
  - rewrite <- (length_fmap source_of ds').
    apply (submseteq_length _ [VStr "LeBonCoin"; VStr "SeLoger"]).
    by apply NoDup_submseteq.
  - done.
  - apply Forall_forall. intros d Hd.
    assert (Hv : source_of d ∈ source_of <$> ds')
      by (apply list_elem_of_fmap; by exists d).
    apply Hsrc in Hv.
    apply elem_of_cons in Hv as [?|Hv]; [by left|].
    apply list_elem_of_singleton in Hv. by right.
Qed.






(** *** Listing details *)

(** X17: [get_listing_details] never answers 404: every error it raises,
    the one for a listing that is not stored included, has status 500;
    and it leaves the collection as it was. *)
Theorem get_listing_details_never_404 (rt : runtime) (listing_id : string) (w : world) :
  (∀ e, (get_listing_details rt listing_id w).1 = Raise e → e = HTTPException 500)
  ∧ (List.find (matches rt [("id"%string, CEq (VStr listing_id))]) (listings w) = None →
     (get_listing_details rt listing_id w).1 = Raise (HTTPException 500))
  ∧ listings (get_listing_details rt listing_id w).2 = listings w.
Proof.
  unfold get_listing_details, or_500, get_listing_details_body, find_one, db_call,
    raise, mbind, M_bind, mret, M_ret.
  destruct w as [ds fs]; simpl.
  destruct fs as [|[] fs]; simpl;
    destruct (List.find (matches rt [("id"%string, CEq (VStr listing_id))]) ds);
    simpl; split_and!; try done; by intros e [= <-].
Qed.

Lemma get_listing_details_never_404_witness :
  (get_listing_details demo_runtime "missing"
     (calm [flat "a" "SeLoger" "T2" 1200 2 45])).1
  = Raise (HTTPException 500).
Proof.
  apply (get_listing_details_never_404 demo_runtime "missing"
           (calm [flat "a" "SeLoger" "T2" 1200 2 45])).
  reflexivity.
Defined.




(** *** Favorites *)

Lemma fav_call_calm {A : Type} (op : list doc → result A * list doc)
    (ds favs : list doc) :
  fav_call op (calm_site ds favs) = ((op favs).1, calm_site ds (op favs).2).
Proof. unfold fav_call, calm_site, calm; simpl. by destruct (op favs). Qed.

Lemma add_to_favorites_calm (listing_id : string) (now : Z) (ds favs : list doc) :
  add_to_favorites listing_id now (calm_site ds favs)
  = (Ok "Added to favorites"%string,
     calm_site ds (favs ++ [favorite_entry listing_id now])).
Proof.
  unfold add_to_favorites, or_500, mbind, SiteM_bind. by rewrite fav_call_calm.
Qed.

Lemma remove_from_favorites_calm (rt : runtime) (listing_id : string) (ds favs : list doc) :
  remove_from_favorites rt listing_id (calm_site ds favs)
  = (Ok "Removed from favorites"%string,
     calm_site ds (delete_first rt [("listing_id"%string, CEq (VStr listing_id))] favs)).
Proof.
  unfold remove_from_favorites, or_500, mbind, SiteM_bind. by rewrite fav_call_calm.
Qed.

(** Deleting the first match takes one record off the selection, when
    there is one. *)
Lemma delete_first_filter (rt : runtime) (q : query) (ds : list doc) :
  List.filter (matches rt q) (delete_first rt q ds)
  = tail (List.filter (matches rt q) ds).
Proof.
  induction ds as [|d ds IH]; simpl; [done|].
  destruct (matches rt q d) eqn:E; simpl; [done|]. by rewrite E.
Qed.

(** Records outside the selection are all kept, in order. *)
Lemma delete_first_others (rt : runtime) (q : query) (ds : list doc) :
  List.filter (λ d, negb (matches rt q d)) (delete_first rt q ds)
  = List.filter (λ d, negb (matches rt q d)) ds.
Proof.
  induction ds as [|d ds IH]; simpl; [done|].
  destruct (matches rt q d) eqn:E; simpl; [done|]. by rewrite E, IH.
Qed.

(** X19: favorites are entries, not a set.  Removing a favorite answers
    with success whether or not an entry exists, takes away the oldest
    entry of that listing only, and keeps every entry of other listings;
    so a listing added twice is still a favorite after one removal. *)
Theorem remove_from_favorites_takes_one_entry
    (rt : runtime) (listing_id : string) (ds favs : list doc) :
  let q := [("listing_id"%string, CEq (VStr listing_id))] in
  (∃ favs',
     remove_from_favorites rt listing_id (calm_site ds favs)
     = (Ok "Removed from favorites"%string, calm_site ds favs')
     ∧ count_matching rt q favs' = Nat.pred (count_matching rt q favs)
     ∧ List.filter (λ d, negb (matches rt q d)) favs'
       = List.filter (λ d, negb (matches rt q d)) favs)
  ∧ (∀ t1 t2, ∃ s1 s2 favs',
       add_to_favorites listing_id t1 (calm_site ds favs)
       = (Ok "Added to favorites"%string, s1)
       ∧ add_to_favorites listing_id t2 s1 = (Ok "Added to favorites"%string, s2)
       ∧ remove_from_favorites rt listing_id s2
         = (Ok "Removed from favorites"%string, calm_site ds favs')
       ∧ count_matching rt q favs' = S (count_matching rt q favs)).
Proof.
  intros q. split.
  - eexists. split; [apply remove_from_favorites_calm|]. fold q.
    unfold count_matching. rewrite delete_first_filter, delete_first_others.
    split; [|done]. by destruct (List.filter (matches rt q) favs).
  - intros t1 t2. eexists _, _, _. split_and!.
    + apply add_to_favorites_calm.
    + apply add_to_favorites_calm.
    + apply remove_from_favorites_calm.
    + fold q. unfold count_matching.
      assert (Hm : ∀ t, matches rt q (favorite_entry listing_id t) = true).
      { intros t. unfold matches, q. simpl.
        replace (favorite_entry listing_id t !! "listing_id"%string)
          with (Some (VStr listing_id)) by reflexivity.
        by rewrite eq_match_refl. }
      rewrite delete_first_filter, <- app_assoc, List.filter_app. cbn [app].
      rewrite (filter_cons_true _ _ _ (Hm t1)), (filter_cons_true _ _ _ (Hm t2)).
      destruct (List.filter (matches rt q) favs); simpl; [done|].
      rewrite length_app. simpl. lia.
Qed.

(** A lookup in [listings] made from a favorites route. *)
Lemma on_listings_find_one (rt : runtime) (q : query) (s : site) :
  ∃ fs,
    (on_listings (find_one rt q) s).2
    = {| store := {| listings := listings (store s); faults := fs |};
         favorites := favorites s |}
    ∧ ∀ found, (on_listings (find_one rt q) s).1 = Ok found →
               found = List.find (matches rt q) (listings (store s)).
Proof.
  unfold on_listings, find_one, db_call.
  destruct s as [[ds fs] favs]; simpl.
  destruct fs as [|[] fs]; simpl; destruct (query_ok rt q); simpl;
    eexists; (split; [reflexivity|]); by intros found [= <-].
Qed.

Lemma collect_favorites_sound (rt : runtime) (favs : list doc) (s s' : site) (out : list doc) :
  collect_favorites rt favs s = (Ok out, s') →
  listings (store s') = listings (store s)
  ∧ favorites s' = favorites s
  ∧ (length out ≤ length favs)%nat
  ∧ ∀ d', d' ∈ out →
      ∃ d fav, d ∈ listings (store s) ∧ fav ∈ favs
        ∧ d' = delete "_id"%string d
        ∧ eq_match (dict_get fav "listing_id") (d !! "id"%string) = true.
Proof.
  revert s out. induction favs as [|fav favs IH]; intros s out; simpl.
  - intros [= <- <-]. split_and!; [done|done|done|]. by intros d' ?%elem_of_nil.
  - unfold mbind, SiteM_bind, getitem.
    destruct (fav !! "listing_id"%string) as [lid|] eqn:L; [|done].
    destruct (on_listings_find_one rt [("id"%string, CEq lid)] s) as (fs & Hst & Hfound).
    destruct (on_listings (find_one rt [("id"%string, CEq lid)]) s)
      as [[found|e] s1] eqn:O; [|done].
    simpl in Hst, Hfound. specialize (Hfound found eq_refl). subst s1.
    destruct (collect_favorites rt favs _) as [[others|e] s2] eqn:C; [|done].
    intros [= <- <-].
    destruct (IH _ _ C) as (Hl & Hf & Hlen & Hin). simpl in Hl, Hf.
    split_and!; [done|done| |].
    + destruct found; simpl; lia.
    + intros d' Hd'.
      assert (Hothers : d' ∈ others → ∃ d fav0, d ∈ listings (store s)
                ∧ fav0 ∈ fav :: favs ∧ d' = delete "_id"%string d
                ∧ eq_match (dict_get fav0 "listing_id") (d !! "id"%string) = true).
      { intros H. destruct (Hin d' H) as (d & fav0 & ? & ? & ? & ?).
        exists d, fav0. split_and!; [done|by right|done|done]. }
      destruct found as [x|]; [|by apply Hothers].
      apply elem_of_cons in Hd' as [->|Hd']; [|by apply Hothers].
      symmetry in Hfound. apply find_Some_elem in Hfound as [Hx Hm].
      exists x, fav. split_and!; [done|by left|done|].
      unfold matches in Hm. simpl in Hm. rewrite andb_true_r in Hm.
      unfold dict_get. by rewrite L.
Qed.

(** X20: [get_favorites] returns stored listings only, each without
    [_id] and each named by a favorite entry, at most one per entry; an
    entry whose listing is not stored adds nothing, silently; and the
    two collections are left as they were. *)
Theorem get_favorites_sound (rt : runtime) (s s' : site) (out : list doc) :
  get_favorites rt s = (Ok out, s') →
  listings (store s') = listings (store s)
  ∧ favorites s' = favorites s
  ∧ (length out ≤ length (favorites s))%nat
  ∧ ∀ d', d' ∈ out →
      ∃ d fav, d ∈ listings (store s) ∧ fav ∈ favorites s
        ∧ d' = delete "_id"%string d
        ∧ eq_match (dict_get fav "listing_id") (d !! "id"%string) = true.
Proof.
  unfold get_favorites, or_500, mbind, SiteM_bind, fav_call.
  destruct s as [[ds fs] favs]; simpl.
  destruct fs as [|[] fs]; simpl; try done;
    match goal with
    | |- context [collect_favorites rt favs ?s0] =>
        destruct (collect_favorites rt favs s0) as [[o|e] s2] eqn:C; [|done];
        intros [= <- <-]; by apply (collect_favorites_sound rt favs _ _ _ C)
    end.
Qed.

Lemma get_favorites_sound_witness :
  let stored := flat "a" "SeLoger" "T2" 1200 2 45 in
  let s := calm_site [stored] [favorite_entry "gone" 5; favorite_entry "a" 9] in
  get_favorites demo_runtime s = (Ok [stored], s)
  ∧ (length [stored] ≤ length (favorites s))%nat.
Proof.
  intros stored s.
  assert (H : get_favorites demo_runtime s = (Ok [stored], s)) by reflexivity.
  split; [exact H|].
  by destruct (get_favorites_sound demo_runtime s s [stored] H) as (_ & _ & Hlen & _).
Defined.

Lemma on_listings_find_by_id_calm (rt : runtime) (v : value) (ds favs : list doc) :
  on_listings (find_one rt [("id"%string, CEq v)]) (calm_site ds favs)
  = (Ok (List.find (matches rt [("id"%string, CEq v)]) ds), calm_site ds favs).
Proof.
  unfold on_listings, calm_site. cbn [store favorites].
  unfold find_one. by rewrite db_call_calm.
Qed.

(** What [get_favorites] answers for a single favorite entry. *)
Lemma get_favorites_single (rt : runtime) (listing_id : string) (now : Z) (ds : list doc) :
  get_favorites rt (calm_site ds [favorite_entry listing_id now])
  = (Ok (match List.find (matches rt [("id"%string, CEq (VStr listing_id))]) ds with
         | Some x => [delete "_id"%string x]
         | None => []
         end),
     calm_site ds [favorite_entry listing_id now]).
Proof.
  unfold get_favorites, or_500, mbind, SiteM_bind. rewrite fav_call_calm.
  cbn [fst snd collect_favorites].
  unfold mbind, SiteM_bind, getitem.
  replace (favorite_entry listing_id now !! "listing_id"%string)
    with (Some (VStr listing_id)) by reflexivity.
  rewrite on_listings_find_by_id_calm.
  by destruct (List.find (matches rt [("id"%string, CEq (VStr listing_id))]) ds).
Qed.

(** X21: a favorite does not survive a re-scrape of its listing.  When a
    listing favorited under its [id] is matched by a reconciliation whose
    listing carries another [id], and no other record has the old [id],
    [get_favorites] returned the listing before and returns nothing
    afterwards. *)
Theorem rescrape_orphans_favorite
    (rt : runtime) (ds : list doc) (l d : doc) (src : value)
    (old_id new_id : string) (now : Z) (i : nat) :
  l !! "source"%string = Some src →
  is_Some (l !! "title"%string) →
  l !! "id"%string = Some (VStr new_id) →
  d !! "id"%string = Some (VStr old_id) →
  old_id ≠ new_id →
  ds !! i = Some d →
  List.find (matches rt (identity_filter (dict_get l "external_id") src)) ds = Some d →
  (∀ (j : nat) d', ds !! j = Some d' → j ≠ i →
     eq_match (VStr old_id) (d' !! "id"%string) = false) →
  get_favorites rt (calm_site ds [favorite_entry old_id now])
  = (Ok [delete "_id"%string d], calm_site ds [favorite_entry old_id now])
  ∧ ∃ ds',
      reconcile rt l (calm ds) = (Ok tt, calm ds')
      ∧ get_favorites rt (calm_site ds' [favorite_entry old_id now])
        = (Ok [], calm_site ds' [favorite_entry old_id now]).
Proof.
  intros Hs Ht Hnew Hold Hne Hi Hfind Hothers.
  set (f := matches rt [("id"%string, CEq (VStr old_id))]).
  assert (Hfd : f d = true).
  { unfold f, matches. simpl. by rewrite Hold, eq_match_refl. }
  split.
  - assert (Hf : List.find f ds = Some d).
    { clear Hfind. revert i Hi Hothers.
      induction ds as [|x ds IH]; intros i Hi Hothers; [done|].
      destruct i as [|i]; simpl in *.
      - inversion Hi; subst. by rewrite Hfd.
      - assert (Hx : f x = false).
        { unfold f, matches. simpl.
          by rewrite (Hothers 0%nat x eq_refl) by lia. }
        rewrite Hx. apply (IH i Hi). intros j d' Hj Hji.
        apply (Hothers (S j) d' Hj). lia. }
    rewrite get_favorites_single. fold f. by rewrite Hf.
  - destruct (set_first_insert rt _ l ds d Hfind) as (i' & Hi' & Hbefore & Hset).
    assert (i' = i) as ->.
    { destruct (decide (i' = i)) as [|Hii]; [done|].
      pose proof (Hothers i' d Hi' Hii) as Hc.
      by rewrite Hold, eq_match_refl in Hc. }
    exists (<[i:=l ∪ d]> ds). split.
    + rewrite (reconcile_calm rt ds l src Hs Ht). simpl. by rewrite Hfind, Hset.
    + rewrite get_favorites_single.
      rewrite (find_none_Forall (matches rt [("id"%string, CEq (VStr old_id))])); [done|].
      apply Forall_forall. intros x Hx. unfold matches. simpl. rewrite andb_true_r.
      apply list_elem_of_lookup in Hx as [j Hj].
      destruct (decide (i = j)) as [->|Hij].
      * rewrite list_lookup_insert_eq in Hj by (by apply lookup_lt_Some in Hi).
        inversion Hj; subst.
        rewrite (lookup_union_Some_l _ _ _ _ Hnew). simpl.
        apply bool_decide_eq_false_2. by intros [= ->].
      * rewrite list_lookup_insert_ne in Hj by done.
        apply (Hothers j x Hj). by intros ->.
Qed.

Lemma rescrape_orphans_favorite_witness :
  let d := flat_ext "id-1" "X" "42" "T2" 1000 in
  let l := flat_ext "id-2" "X" "42" "T2" 1100 in
  get_favorites demo_runtime (calm_site [d] [favorite_entry "id-1" 3])
  = (Ok [delete "_id"%string d], calm_site [d] [favorite_entry "id-1" 3])
  ∧ ∃ ds',
      reconcile demo_runtime l (calm [d]) = (Ok tt, calm ds')
      ∧ get_favorites demo_runtime (calm_site ds' [favorite_entry "id-1" 3])
        = (Ok [], calm_site ds' [favorite_entry "id-1" 3]).
Proof.
  intros d l.
  apply (rescrape_orphans_favorite demo_runtime [d] l d (VStr "X") "id-1" "id-2" 3 0);
    first [reflexivity | eexists; reflexivity | discriminate | idtac].
  intros [|j] d' Hj Hne; [done|]. by destruct j.
Defined.

(** *** From a scrape pass to a cache hit *)

Lemma serialize_all_total (rt : runtime) (ds : list doc) :
  Forall (λ d, d !! "published_at"%string = None
               ∨ ∃ t, d !! "published_at"%string = Some (VDatetime t)) ds →
  ∃ out, serialize_all rt ds = Ok out.
Proof.
  induction 1 as [|d ds Hd _ [out IH]]; simpl; [by eexists|].
  unfold serialize_listing. rewrite lookup_delete_ne by done.
  destruct Hd as [->|[t ->]]; rewrite IH; by eexists.
Qed.

Lemma find_calm (rt : runtime) (q : query) (n : nat) (ds : list doc) :
  query_ok rt q = true →
  find rt q n (calm ds) = (Ok (take n (List.filter (matches rt q) ds)), calm ds).
Proof. intros H. unfold find. rewrite db_call_calm. by rewrite H. Qed.

Lemma get_cached_listings_calm (rt : runtime) (c : SearchCriteria) (ds : list doc) :
  query_ok rt (cache_query c) = true →
  Forall (λ d, d !! "published_at"%string = None
               ∨ ∃ t, d !! "published_at"%string = Some (VDatetime t)) ds →
  ∃ out,
    get_cached_listings rt c (calm ds) = (out, calm ds)
    ∧ length out = Nat.min 50 (count_matching rt (cache_query c) ds)
    ∧ Forall2 (λ d d', serialize_listing rt d = Ok d')
        (take 50 (List.filter (matches rt (cache_query c)) ds)) out.
Proof.
  intros Hq Hall.
  assert (Hsub : Forall (λ d, d !! "published_at"%string = None
                   ∨ ∃ t, d !! "published_at"%string = Some (VDatetime t))
                   (take 50 (List.filter (matches rt (cache_query c)) ds))).
  { apply Forall_forall. intros d Hd.
    apply subseteq_take, In_elem_of, filter_In in Hd as [Hd _].
    apply In_elem_of in Hd. by apply (proj1 (Forall_forall _ _) Hall). }
  destruct (serialize_all_total rt _ Hsub) as [out Hout].
  exists out.
  pose proof (serialize_all_Forall2 rt _ out Hout) as H2.
  split_and!; [| |done].
  - unfold get_cached_listings, try_except, get_cached_listings_body, mbind, M_bind.
    rewrite (find_calm rt _ LIMIT ds Hq). unfold lift, LIMIT. by rewrite Hout.
  - rewrite <- (Forall2_length _ _ _ H2), length_take. done.
Qed.

(** X22: on a store whose records carry a datetime [published_at] or
    none, with a pattern that compiles and a store call that goes
    through, the cache lookup returns one listing per matching record, in
    store order, up to fifty: their number is the smaller of 50 and the
    number of matching records. *)
Theorem get_cached_listings_complete (rt : runtime) (c : SearchCriteria) (ds : list doc) :
  query_ok rt (cache_query c) = true →
  Forall (λ d, d !! "published_at"%string = None
               ∨ ∃ t, d !! "published_at"%string = Some (VDatetime t)) ds →
  ∃ out,
    get_cached_listings rt c (calm ds) = (out, calm ds)
    ∧ length out = Nat.min 50 (count_matching rt (cache_query c) ds)
    ∧ Forall2 (λ d d', serialize_listing rt d = Ok d')
        (take 50 (List.filter (matches rt (cache_query c)) ds)) out.
Proof. apply get_cached_listings_calm. Qed.

Lemma get_cached_listings_complete_witness :
  ∃ out,
    get_cached_listings demo_runtime (with_rooms (Some 2)) (calm crowded_store)
    = (out, calm crowded_store)
    ∧ length out = 50%nat.
Proof.
  destruct (get_cached_listings_complete demo_runtime (with_rooms (Some 2)) crowded_store)
    as (out & H1 & H2 & _).
  - reflexivity.
  - apply Forall_forall. intros d (i & -> & _)%list_elem_of_fmap. by left.
  - exists out. split; [exact H1|]. rewrite H2. vm_compute. reflexivity.
Defined.

Lemma set_first_Forall (P : doc → Prop) (rt : runtime) (q : query) (patch : doc)
    (ds : list doc) :
  (∀ d, P (patch ∪ d)) → Forall P ds → Forall P (set_first rt q patch ds).
Proof.
  intros Hp. induction 1 as [|d ds Hd Hds IH]; simpl; [constructor|].
  destruct (matches rt q d); constructor; auto.
Qed.

(** A property every listing of a batch has, and keeps when laid over a
    record, holds of every record after the batch. *)
Lemma reconcile_all_keeps (P : doc → Prop) (rt : runtime) (batch ds ds' : list doc) :
  (∀ l d, P l → P (l ∪ d)) →
  Forall (λ d, ∃ s, anonymous_from s d) batch →
  Forall P batch → Forall P ds →
  reconcile_all rt batch (calm ds) = (Ok tt, calm ds') →
  Forall P ds'.
Proof.
  intros Hp. revert ds. induction batch as [|l batch IH]; intros ds Hb HP Hds; simpl.
  - by intros [= <-].
  - apply Forall_cons in Hb as [[s (He & Hs & Ht)] Hb].
    apply Forall_cons in HP as [Hl HP].
    unfold mbind, M_bind.
    rewrite (reconcile_calm rt ds l (VStr s) Hs Ht). simpl.
    apply IH; [done|done|].
    destruct (List.find _ ds).
    + apply set_first_Forall; [|done]. intros d. by apply Hp.
    + apply Forall_app. split; [done|]. by constructor.
Qed.

Lemma has_datetime_union (l d : doc) :
  (∃ t, l !! "published_at"%string = Some (VDatetime t)) →
  ∃ t, (l ∪ d) !! "published_at"%string = Some (VDatetime t).
Proof. intros [t Ht]. exists t. by apply lookup_union_Some_l. Qed.

Lemma parse_elements_datetime (es : list element) (rs : nat → draws) (i : nat) :
  Forall (λ d, ∃ t, d !! "published_at"%string = Some (VDatetime t))
    (parse_elements es rs i).
Proof.
  revert i. induction es as [|e es IH]; intros i; simpl; [constructor|].
  destruct (parse_listing_element e (rs i)) as [d|] eqn:E; [|apply IH].
  constructor; [|apply IH].
  unfold parse_listing_element in E.
  destruct (aditem_title e) as [t|] eqn:Ht;
    [|by unfold parse_listing_element_body in E; rewrite Ht in E].
  destruct (aditem_price e) as [p|] eqn:Hp;
    [|by unfold parse_listing_element_body in E; rewrite Ht, Hp in E].
  destruct (aditem_location e) as [l|] eqn:Hl;
    [|by unfold parse_listing_element_body in E; rewrite Ht, Hp, Hl in E].
  destruct (img_src e) as [im|] eqn:Hi;
    [|by unfold parse_listing_element_body in E; rewrite Ht, Hp, Hl, Hi in E;
         unfold find_element, mbind, result_bind in E;
         destruct (extract_price (strip p))].
  destruct (a_href e) as [h|] eqn:Hh;
    [|by unfold parse_listing_element_body in E; rewrite Ht, Hp, Hl, Hi, Hh in E;
         unfold find_element, mbind, result_bind in E;
         destruct (extract_price (strip p))].
  rewrite (parse_listing_element_body_found e (rs i) t p l im h) in E by done.
  destruct (extract_price (strip p)); [|done].
  inversion E; subst. by eexists.
Qed.

Lemma registered_scrapers_datetime
    (b : browser) (rs : nat → draws) (count : Z) (srs : nat → seloger_draws)
    (c : SearchCriteria) :
  Forall (λ d, ∃ t, d !! "published_at"%string = Some (VDatetime t))
    (scrape_all_sources (registered_scrapers b rs count srs c)).
Proof.
  assert (Hsl : Forall (λ d, ∃ t, d !! "published_at"%string = Some (VDatetime t))
                  (seloger_scrape_listings count srs)).
  { apply Forall_forall. intros d (i & -> & _)%list_elem_of_fmap. by eexists. }
  unfold registered_scrapers, scrape_all_sources, leboncoin_scrape_listings. simpl.
  destruct (driver_starts b); simpl; [|done].
  destruct (page b (leboncoin_build_search_url c)) as [es|]; simpl.
  - destruct (quit_ok b); simpl;
      [|destruct (quit_again_ok b); simpl; [|done]];
      (apply Forall_app; split; [apply parse_elements_datetime|done]).
  - by destruct (quit_again_ok b).
Qed.

(** X23: after a background pass over the two scrapers into an empty
    store that does not fail, in which SeLoger yields at least one
    listing, a search with no criteria is a cache hit: it answers with
    the stored records, one listing each, marked cached, and queues no
    refresh. *)
Theorem full_pass_then_search_hits
    (rt : runtime) (b : browser) (rs : nat → draws) (count : Z)
    (srs : nat → seloger_draws) (c : SearchCriteria) (r : sample_draws) :
  0 < count →
  ∃ ds' resp,
    scrape_and_cache_listings rt (registered_scrapers b rs count srs c) (calm [])
    = (tt, calm ds')
    ∧ ds' ≠ []
    ∧ search_apartments rt r default_criteria (calm ds') = (Ok (resp, false), calm ds')
    ∧ resp_cached resp = true
    ∧ length (resp_listings resp) = length ds'
    ∧ Forall2 (λ d d', serialize_listing rt d = Ok d') ds' (resp_listings resp).
Proof.
  intros Hcount.
  destruct (registered_scrapers_yield b rs count srs c) as (ls & Hrun & Hls & _).
  pose proof (seloger_scrape_listings_anonymous count srs) as Hsl.
  pose proof (registered_scrapers_datetime b rs count srs c) as Hdt.
  rewrite Hrun in Hdt.
  assert (Hb : Forall (λ d, ∃ s, anonymous_from s d)
                 (ls ++ seloger_scrape_listings count srs)).
  { apply Forall_app. split; (eapply Forall_impl; [eassumption|]);
      intros d Hd; by eexists. }
  destruct (reconcile_all_anonymous rt _ [] Hb) as (ds' & R & _ & Hnd & Hset);
    [constructor|constructor|].
  pose proof (reconcile_all_keeps _ rt _ [] ds' has_datetime_union Hb Hdt
                (Forall_nil_2 _) R) as Hds'.
  assert (Hne : ds' ≠ []).
  { intros ->.
    assert (Hin : VStr "SeLoger" ∈ source_of <$> @nil doc).
    { apply Hset. left. rewrite fmap_app. apply elem_of_app. right.
      unfold seloger_scrape_listings.
      destruct (Z.to_nat count) as [|n] eqn:En; [lia|].
      simpl. apply list_elem_of_here. }
    by apply elem_of_nil in Hin. }
  assert (Hlen : (length ds' ≤ 50)%nat).
  { rewrite <- (length_fmap source_of ds').
    assert (Hle : (length (source_of <$> ds') ≤ 2)%nat); [|lia].
    apply (submseteq_length _ [VStr "LeBonCoin"; VStr "SeLoger"]).
    apply NoDup_submseteq; [done|].
    intros v [Hv|Hv]%Hset; [|by apply elem_of_nil in Hv].
    apply list_elem_of_fmap in Hv as (d & -> & Hd).
    apply elem_of_app in Hd as [Hd|Hd].
    - rewrite (source_of_anonymous "LeBonCoin" d
                 (proj1 (Forall_forall _ _) Hls d Hd)). apply list_elem_of_here.
    - rewrite (source_of_anonymous "SeLoger" d
                 (proj1 (Forall_forall _ _) Hsl d Hd)).
      apply list_elem_of_further, list_elem_of_here. }
  destruct (get_cached_listings_calm rt default_criteria ds') as (out & Hg & Hol & Hf2).
  { reflexivity. }
  { eapply Forall_impl; [exact Hds'|]. intros d Hd. by right. }
  assert (Hall : List.filter (matches rt (cache_query default_criteria)) ds' = ds').
  { clear. induction ds' as [|d ds IH]; simpl; [done|]. by rewrite IH. }
  rewrite Hall in Hf2. rewrite take_ge in Hf2 by done.
  assert (Holen : length out = length ds') by (symmetry; by eapply Forall2_length).
  exists ds'. destruct out as [|x out].
  { destruct ds'; [done|discriminate]. }
  eexists. split_and!.
  - unfold scrape_and_cache_listings, try_except. by rewrite Hrun, R.
  - done.
  - unfold search_apartments. rewrite Hg. reflexivity.
  - reflexivity.
  - done.
  - done.
Qed.

Lemma full_pass_then_search_hits_witness :
  let run := registered_scrapers
               (working_browser [priced_element "950"; priced_element "1 100"])
               (λ _, some_draws) 3 (λ _, some_seloger_draws) default_criteria in
  ∃ ds' resp,
    scrape_and_cache_listings demo_runtime run (calm []) = (tt, calm ds')
    ∧ ds' ≠ []
    ∧ search_apartments demo_runtime some_sample_draws default_criteria (calm ds')
      = (Ok (resp, false), calm ds')
    ∧ resp_cached resp = true
    ∧ length (resp_listings resp) = length ds'
    ∧ Forall2 (λ d d', serialize_listing demo_runtime d = Ok d') ds' (resp_listings resp).
Proof.
  intros run.
  apply (full_pass_then_search_hits demo_runtime
           (working_browser [priced_element "950"; priced_element "1 100"])
           (λ _, some_draws) 3 (λ _, some_seloger_draws) default_criteria
           some_sample_draws).
  lia.
Defined.
